(** * etl_arm: the accounts-receivable ETL pipeline of [src/processing.py]

    A shallow embedding of the extract, transform and parameter-loading
    functions of [processing.py], followed by the properties stated about
    them.

    Conventions of the embedding.
    - A Python [str] is a [string]; a character is a code point below 256.
    - A Python exception is a value of [exn]; a function that may raise
      returns a [result].
    - A pandas integer column holds [Z] values; a float column holds
      binary64 values ([spec_float] at precision 53, [emax] 1024), with
      [S754_nan] for a missing value; the cast of a float column to
      integers is the cast to [int64].
    - A pandas text column holds [option string], [None] for a missing cell.
    - A table is the list of its rows, in index order. *)

From Stdlib Require Import ZArith List String Ascii Bool Lia.
From Stdlib Require Import Permutation Sorted.
From Stdlib Require Import SpecFloat.
Import ListNotations.

Local Open Scope string_scope.
Local Open Scope Z_scope.

(* ================================================================= *)
(** ** Exceptions and results *)

Inductive exn_kind : Type :=
| ValueError
| KeyError
| TypeError
| IndexError
| FileNotFoundError
| PyException.

(** A raised exception: its class and its message. *)
Record exn : Type := Exn { exn_class : exn_kind; exn_msg : string }.

Inductive result (A : Type) : Type :=
| Ok (a : A)
| Raise (e : exn).
Arguments Ok {A} a.
Arguments Raise {A} e.

Definition bind {A B : Type} (r : result A) (k : A -> result B) : result B :=
  match r with
  | Ok a => k a
  | Raise e => Raise e
  end.

Notation "x <- r ;; k" := (bind r (fun x => k))
  (at level 61, r at next level, right associativity).
Notation "' p <- r ;; k" := (bind r (fun p => k))
  (at level 61, p pattern, r at next level, right associativity).

(** The characters of a string, and a string without the character [c]. *)
Definition chars (s : string) : list ascii := list_ascii_of_string s.

Definition free_of (c : ascii) (s : string) : bool :=
  forallb (fun a => negb (Ascii.eqb a c)) (chars s).

(** [str(e)]: the message, which for a [KeyError] is put between quotes
    as [repr] does (between double quotes when it holds a single quote
    and no double quote). A message that holds both kinds of quote or a
    backslash, which [repr] would escape, is outside the model. *)
Definition single_quote : ascii := ascii_of_N 39.
Definition double_quote : ascii := ascii_of_N 34.

Definition py_repr (m : string) : string :=
  let q := if (negb (free_of single_quote m) && free_of double_quote m)%bool
           then double_quote else single_quote in
  String q (m ++ String q EmptyString).

Definition exn_str (e : exn) : string :=
  match exn_class e with
  | KeyError => py_repr (exn_msg e)
  | _ => exn_msg e
  end.

(** [try: body except Exception as e: raise K(f"...{e}")]: every
    exception of the body is replaced by one of class [k] whose message
    is built from [str(e)] of the caught one. *)
Definition reraise {A : Type} (k : exn_kind) (f : string -> string)
    (body : result A) : result A :=
  match body with
  | Ok a => Ok a
  | Raise e => Raise (Exn k (f (exn_str e)))
  end.

(** Traverse a list with a fallible function; the first exception wins. *)
Fixpoint mapM {A B : Type} (f : A -> result B) (l : list A) : result (list B) :=
  match l with
  | [] => Ok []
  | x :: xs => y <- f x ;; ys <- mapM f xs ;; Ok (y :: ys)
  end.

(* ================================================================= *)
(** ** Python string primitives *)

Definition code (c : ascii) : N := N_of_ascii c.

Definition in_range (lo hi : N) (c : ascii) : bool :=
  (N.leb lo (code c) && N.leb (code c) hi)%bool.

(** [\d] of the [re] module, on code points below 256. *)
Definition is_digit (c : ascii) : bool := in_range 48 57 c.

(** [str.isspace] on one character, on code points below 256. *)
Definition py_isspace (c : ascii) : bool :=
  (in_range 9 13 c || in_range 28 32 c
   || N.eqb (code c) 133 || N.eqb (code c) 160)%bool.

Fixpoint py_lstrip (s : string) : string :=
  match s with
  | EmptyString => EmptyString
  | String c s' => if py_isspace c then py_lstrip s' else s
  end.

Fixpoint py_rstrip (s : string) : string :=
  match s with
  | EmptyString => EmptyString
  | String c s' =>
      match py_rstrip s' with
      | EmptyString => if py_isspace c then EmptyString else String c EmptyString
      | r => String c r
      end
  end.

(** [s.strip()] *)
Definition py_strip (s : string) : string := py_rstrip (py_lstrip s).

(** [s.split(sep)] for a one-character separator: never empty. *)
Fixpoint py_split (sep : ascii) (s : string) : list string :=
  match s with
  | EmptyString => [EmptyString]
  | String c s' =>
      if Ascii.eqb c sep then EmptyString :: py_split sep s'
      else match py_split sep s' with
           | p :: ps => String c p :: ps
           | [] => [String c EmptyString]
           end
  end.

(** [l[i]]: an [IndexError] out of range. *)
Definition py_index {A : Type} (l : list A) (i : nat) : result A :=
  match nth_error l i with
  | Some a => Ok a
  | None => Raise (Exn IndexError "list index out of range")
  end.

(** [c.lower()] on code points below 256: the letters A-Z and the
    Latin-1 capitals (0xC0-0xDE except the multiplication sign 0xD7). *)
Definition lower_char (c : ascii) : ascii :=
  if (in_range 65 90 c || (in_range 192 222 c && negb (N.eqb (code c) 215)))%bool
  then ascii_of_N (code c + 32) else c.

(** [c.upper()] where the result stays below 256; the three lower-case
    code points whose capital lies above 255 (0xB5, 0xDF, 0xFF) are left
    as they are. *)
Definition upper_char (c : ascii) : ascii :=
  if (in_range 97 122 c || (in_range 224 254 c && negb (N.eqb (code c) 247)))%bool
  then ascii_of_N (code c - 32) else c.

Fixpoint py_lower (s : string) : string :=
  match s with
  | EmptyString => EmptyString
  | String c s' => String (lower_char c) (py_lower s')
  end.

(** [s.capitalize()]: first character upper-cased, the rest lower-cased. *)
Definition py_capitalize (s : string) : string :=
  match s with
  | EmptyString => EmptyString
  | String c s' => String (upper_char c) (py_lower s')
  end.

(** [sub in s] *)
Fixpoint py_contains (sub s : string) : bool :=
  (prefix sub s ||
   match s with
   | EmptyString => false
   | String _ s' => py_contains sub s'
   end)%bool.

(** [re.search('a|b|...', s) is not None] for literal alternatives:
    what [Series.str.contains] computes for one non-missing cell. *)
Definition contains_any (alts : list string) (s : string) : bool :=
  existsb (fun a => py_contains a s) alts.

(* ================================================================= *)
(** ** 1. Extract *)

(** One element of the filename pattern: a literal character or [\d]. *)
Inductive pat_item : Type :=
| Lit (c : ascii)
| Digit.

Definition item_matches (p : pat_item) (c : ascii) : bool :=
  match p with
  | Lit a => Ascii.eqb c a
  | Digit => is_digit c
  end.

(** Match a sequence of items at the start of [s]; the rest of [s]. *)
Fixpoint match_prefix (pat : list pat_item) (s : string) : option string :=
  match pat with
  | [] => Some s
  | p :: pat' =>
      match s with
      | EmptyString => None
      | String c s' => if item_matches p c then match_prefix pat' s' else None
      end
  end.

Definition lits (s : string) : list pat_item :=
  map Lit (list_ascii_of_string s).

(** The body of [r'^ARM_\d{4}-\d{2}-\d{2}\.xlsx$'] between the anchors. *)
Definition filename_pattern : list pat_item :=
  (lits "ARM_" ++ [Digit; Digit; Digit; Digit] ++ lits "-" ++ [Digit; Digit]
   ++ lits "-" ++ [Digit; Digit] ++ lits ".xlsx")%list.

Definition newline : ascii := ascii_of_N 10.

(** [re.match(pattern, file_name)] is not [None]. [re.match] anchors at
    the start; [$] matches at the end of the string and also just before
    a newline that ends the string. *)
Definition re_match_filename (file_name : string) : bool :=
  match match_prefix filename_pattern file_name with
  | Some EmptyString => true
  | Some (String c EmptyString) => Ascii.eqb c newline
  | _ => false
  end.

Definition format_error (file_name : string) : exn :=
  Exn ValueError
      ("File name '" ++ file_name ++ "' does not match format ARM_YYYY-MM-DD.xlsx").

Definition get_date_from_filename (file_name : string) : result string :=
  if re_match_filename file_name then
    after <- py_index (py_split "_" file_name) 1 ;;
    date_extracted <- py_index (py_split "." after) 0 ;;
    Ok date_extracted
  else Raise (format_error file_name).

(** A [datetime.datetime] at midnight. *)
Record datetime : Type := Datetime { year : Z; month : Z; day : Z }.

Definition digit_val (c : ascii) : Z := Z.of_N (code c) - 48.

Definition is_leap (y : Z) : bool :=
  ((y mod 4 =? 0) && (negb (y mod 100 =? 0) || (y mod 400 =? 0)))%bool.

Definition days_in_month (y m : Z) : Z :=
  if m =? 2 then (if is_leap y then 29 else 28)
  else if (m =? 4) || (m =? 6) || (m =? 9) || (m =? 11) then 30
  else 31.

(** The dates a [datetime] can hold: years 1 to 9999. *)
Definition valid_date (y m d : Z) : bool :=
  ((1 <=? y) && (y <=? 9999) && (1 <=? m) && (m <=? 12)
   && (1 <=? d) && (d <=? days_in_month y m))%bool.

(** [%m]: the alternatives [1[0-2]|0[1-9]|[1-9]], tried in this order. *)
Definition parse_month (s : string) : option (Z * string) :=
  match s with
  | String a (String b r) =>
      if (Ascii.eqb a "1" && in_range 48 50 b)%bool then Some (10 + digit_val b, r)
      else if (Ascii.eqb a "0" && in_range 49 57 b)%bool then Some (digit_val b, r)
      else if in_range 49 57 a then Some (digit_val a, String b r)
      else None
  | String a EmptyString =>
      if in_range 49 57 a then Some (digit_val a, EmptyString) else None
  | EmptyString => None
  end.

(** [%d]: the alternatives [3[0-1]|[1-2]\d|0[1-9]|[1-9]| [1-9]]. *)
Definition parse_day (s : string) : option (Z * string) :=
  match s with
  | String a (String b r) =>
      if (Ascii.eqb a "3" && in_range 48 49 b)%bool then Some (30 + digit_val b, r)
      else if (in_range 49 50 a && is_digit b)%bool
           then Some (10 * digit_val a + digit_val b, r)
      else if (Ascii.eqb a "0" && in_range 49 57 b)%bool then Some (digit_val b, r)
      else if in_range 49 57 a then Some (digit_val a, String b r)
      else if (Ascii.eqb a " " && in_range 49 57 b)%bool then Some (digit_val b, r)
      else None
  | String a EmptyString =>
      if in_range 49 57 a then Some (digit_val a, EmptyString) else None
  | EmptyString => None
  end.

(** [datetime.datetime.strptime(date_str, '%Y-%m-%d')]: [None] stands for
    the [ValueError] it raises (no match, text left over, or a day that
    the calendar does not have). *)
Definition strptime_ymd (date_str : string) : option datetime :=
  match date_str with
  | String y1 (String y2 (String y3 (String y4 (String dash1 r1)))) =>
      if (is_digit y1 && is_digit y2 && is_digit y3 && is_digit y4
          && Ascii.eqb dash1 "-")%bool then
        match parse_month r1 with
        | Some (m, String dash2 r2) =>
            if Ascii.eqb dash2 "-" then
              match parse_day r2 with
              | Some (d, EmptyString) =>
                  let y := 1000 * digit_val y1 + 100 * digit_val y2
                           + 10 * digit_val y3 + digit_val y4 in
                  if valid_date y m d then Some (Datetime y m d) else None
              | _ => None
              end
            else None
        | _ => None
        end
      else None
  | _ => None
  end.

(** The [ValueError] of [date_str_datetime]; the message of [strptime]
    that the source appends to it is left out. *)
Definition conversion_error (date_str : string) : exn :=
  Exn ValueError (date_str ++ " cannot be converted. Verify file name.").

Definition date_str_datetime (file_name : string) : result (string * datetime) :=
  date_str <- get_date_from_filename file_name ;;
  match strptime_ymd date_str with
  | Some date_datetime => Ok (date_str, date_datetime)
  | None => Raise (conversion_error date_str)
  end.

Definition get_file_path (folder_path file_name : string) : string :=
  folder_path ++ "/" ++ file_name.

Definition top_rows_to_skip : list nat := (seq 0 16 ++ [17%nat])%list.

Definition trim_string (folder_path file_name : string) : string * string :=
  (py_strip folder_path, py_strip file_name).

(** [date_datetime.date().isoformat()]: the date as [YYYY-MM-DD]. *)
Definition digit_char (n : Z) : ascii := ascii_of_N (Z.to_N (48 + n)).

Definition pad2 (n : Z) : string :=
  String (digit_char (n / 10 mod 10)) (String (digit_char (n mod 10)) EmptyString).

Definition pad4 (n : Z) : string :=
  String (digit_char (n / 1000 mod 10))
    (String (digit_char (n / 100 mod 10)) (pad2 n)).

Definition isoformat (d : datetime) : string :=
  pad4 (year d) ++ "-" ++ pad2 (month d) ++ "-" ++ pad2 (day d).

(* ================================================================= *)
(** ** Numbers: binary64 and the integer cast *)

Definition prec : Z := 53.
Definition emax : Z := 1024.

Definition f64_add : spec_float -> spec_float -> spec_float := SFadd prec emax.
Definition f64_sub : spec_float -> spec_float -> spec_float := SFsub prec emax.
Definition f64_div : spec_float -> spec_float -> spec_float := SFdiv prec emax.

(** The binary64 nearest to an integer (integer column used in float
    arithmetic). *)
Definition float_of_Z (z : Z) : spec_float := binary_normalize prec emax z 0 false.

Definition f64_zero : spec_float := S754_zero false.

(** Truncation toward zero of a finite float; [None] for NaN and the
    infinities, on which [astype('int')] raises. *)
Definition trunc_float (f : spec_float) : option Z :=
  match f with
  | S754_zero _ => Some 0
  | S754_finite s m e =>
      Some (cond_Zopp s
              (match e with
               | Zneg p => Zpos m / 2 ^ Zpos p
               | _ => Zpos m * 2 ^ e
               end))
  | S754_infinity _ | S754_nan => None
  end.

Definition cast_error : string :=
  "Cannot convert non-finite values (NA or inf) to integer".

(** The integers of a pandas [int] column: 64 bits, two's complement. *)
Definition int64_min : Z := - 2 ^ 63.
Definition int64_max : Z := 2 ^ 63 - 1.

Definition in_int64 (z : Z) : bool := ((int64_min <=? z) && (z <=? int64_max))%bool.

(** The cast of a truncated float to [int64]. numpy casts with the
    conversion of C, which gives the truncated value when it is in
    range; out of range C leaves the result undefined and pandas hides
    the warning. The value taken here is the one of the x86-64
    conversion instruction, [-2^63]. *)
Definition cast_int64 (z : Z) : Z := if in_int64 z then z else int64_min.

(** [series.astype('int')] on one float cell: NaN and the infinities
    raise; a finite value is truncated toward zero and cast to [int64]. *)
Definition astype_int (f : spec_float) : result Z :=
  match trunc_float f with
  | Some z => Ok (cast_int64 z)
  | None => Raise (Exn ValueError cast_error)
  end.

(** [np.maximum(x, 0)] on one cell: NaN is propagated. *)
Definition np_maximum0 (x : spec_float) : spec_float :=
  match SFcompare x f64_zero with
  | Some Gt => x
  | Some _ => f64_zero
  | None => S754_nan
  end.

(** A numeric cell of the spreadsheet: of an integer or of a float column. *)
Inductive num : Type :=
| Int (z : Z)
| Flt (f : spec_float).

(* ================================================================= *)
(** ** Tables *)

(** The eight amount columns that every stage carries:
    [balance], [due1-30d], [due31-60d], [due61-90d], [due91-120d],
    [due>120d], [citotal], [sall12m]. *)
Record amounts (A : Type) : Type := Amounts {
  balance : A;
  due1_30d : A;
  due31_60d : A;
  due61_90d : A;
  due91_120d : A;
  due_gt120d : A;
  citotal : A;
  sall12m : A
}.
Arguments Amounts {A}.
Arguments balance {A}.
Arguments due1_30d {A}.
Arguments due31_60d {A}.
Arguments due61_90d {A}.
Arguments due91_120d {A}.
Arguments due_gt120d {A}.
Arguments citotal {A}.
Arguments sall12m {A}.

(** A row under the thirteen selected headers, numeric cells of type [A]. *)
Record selected_row (A : Type) : Type := SelectedRow {
  unnamed0 : option string;
  unnamed1 : option string;
  unnamed4 : option string;
  sel_amounts : amounts A;
  sel_secbank : A;
  sel_secother : A
}.
Arguments SelectedRow {A}.
Arguments unnamed0 {A}.
Arguments unnamed1 {A}.
Arguments unnamed4 {A}.
Arguments sel_amounts {A}.
Arguments sel_secbank {A}.
Arguments sel_secother {A}.

(** The frame read from the spreadsheet: its header row, and for every
    data row the cells under the thirteen headers that
    [adjust_select_columns] keeps. *)
Record frame : Type := Frame {
  columns : list string;
  rows : list (selected_row num)
}.

(** After [rename_headers]. *)
Record named_row : Type := NamedRow {
  long_credit_account : option string;
  nr_debtor_name : option string;
  nr_country_code : option string;
  nr_amounts : amounts Z;
  secbank : Z;
  secother : Z
}.

(** After [split_col_long_credit_account]. *)
Record split_row : Type := SplitRow {
  sr_entity_code : option string;
  sr_credit_account : option string;
  sr_debtor_name : option string;
  sr_country_code : option string;
  sr_amounts : amounts Z;
  sr_secbank : Z;
  sr_secother : Z
}.

(** After [add_col_security]: a row of [df_main]. *)
Record main_row : Type := MainRow {
  entity_code : option string;
  credit_account : option string;
  debtor_name : option string;
  country_code : option string;
  amts : amounts Z;
  security : Z
}.

(** A row of the region reference table after [get_regions_df] dropped
    [entity_name] and [vat_insured]: the join key, the tax rate, and the
    [region] column that the top-40 view groups by. *)
Record region_row : Type := RegionRow {
  rg_entity_code : string;
  rg_region : option string;
  rg_tax_rate : spec_float
}.

(** A row of [df_joined] before [calculate_uninsured_balance]. *)
Record joined_row : Type := JoinedRow {
  jr_main : main_row;
  jr_region : option string;
  tax_rate : spec_float
}.

(** A row of [df_joined] after [calculate_uninsured_balance]. *)
Record enriched_row : Type := EnrichedRow {
  er_main : main_row;
  region : option string;
  uninsured_balance : Z
}.

(** A row of the top-40 report. *)
Record top40_row : Type := Top40Row {
  top_date : datetime;
  top_main : main_row;
  top_uninsured_balance : Z
}.

(** A row of the aggregate report. *)
Record agg_row : Type := AggRow {
  agg_date : datetime;
  agg_entity_code : string;
  agg_country_code : string;
  agg_balance : Z;
  agg_uninsured_balance : Z;
  agg_due1_30d : Z;
  agg_due31_60d : Z;
  agg_due61_90d : Z;
  agg_due91_120d : Z;
  agg_due_gt120d : Z;
  agg_sall12m : Z
}.

(* ================================================================= *)
(** ** 1. Extract, continued: reading the spreadsheet *)

(** What the extract stage does to the outside world. *)
Inductive io_event : Type :=
| ReadExcel (file_path : string) (skiprows : list nat) (skipfooter : nat).

Section Extract.

(** [pd.read_excel(file_path, skiprows=..., skipfooter=...)] *)
Variable pd_read_excel : string -> list nat -> nat -> result frame.

Definition get_data_from_xlsx (folder_path file_name : string)
    (log : list io_event) : result frame * list io_event :=
  let file_path := get_file_path folder_path file_name in
  let top_skip := top_rows_to_skip in
  (reraise PyException
     (fun m => "Error while importing xlsx file " ++ file_name ++ ": "
          ++ String newline ("Message:" ++ m))
     (pd_read_excel file_path top_skip 15),
   (log ++ [ReadExcel file_path top_skip 15])%list).

Definition extract_data (folder_path file_name : string)
    (log : list io_event)
    : result (frame * string * datetime) * list io_event :=
  let '(folder_path_adj, file_name_adj) := trim_string folder_path file_name in
  match date_str_datetime file_name_adj with
  | Raise e => (Raise e, log)
  | Ok (date_str, date_datetime) =>
      match get_data_from_xlsx folder_path_adj file_name_adj log with
      | (Ok df, log') => (Ok (df, date_str, date_datetime), log')
      | (Raise e, log') => (Raise e, log')
      end
  end.

End Extract.

(* ================================================================= *)
(** ** 1.2.1 Pre-transform *)

(** [s.replace(c, '')] for a one-character [c]. *)
Fixpoint py_remove (c : ascii) (s : string) : string :=
  match s with
  | EmptyString => EmptyString
  | String a s' => if Ascii.eqb a c then py_remove c s' else String a (py_remove c s')
  end.

(** What [adjust_col_headers] does to one header. *)
Definition adjust_header (h : string) : string :=
  py_lower (py_remove " " (py_remove "." (py_remove ":" (py_strip h)))).

Definition adjust_col_headers (df : frame) : frame :=
  Frame (map adjust_header (columns df)) (rows df).

Definition select_cols : list string :=
  ["unnamed0"; "unnamed1"; "unnamed4"; "balance"; "due1-30d"; "due31-60d";
   "due61-90d"; "due91-120d"; "due>120d"; "citotal"; "sall12m"; "secbank";
   "secother"].

Definition py_in (s : string) (l : list string) : bool :=
  existsb (String.eqb s) l.

Definition adjust_select_columns (df : frame) : result (list (selected_row num)) :=
  let df_adj := adjust_col_headers df in
  let missing_cols := filter (fun c => negb (py_in c (columns df_adj))) select_cols in
  match missing_cols with
  | [] => Ok (rows df_adj)
  | _ =>
      Raise (Exn KeyError
               ("The following columns are missing in the DataFrame: "
                ++ String.concat ", " missing_cols))
  end.

Definition is_none {A : Type} (o : option A) : bool :=
  match o with
  | None => true
  | Some _ => false
  end.

(** A text column of a frame with rows whose every cell is missing is read
    as a float column of NaN. *)
Definition all_missing {R : Type} (col : R -> option string) (df : list R) : bool :=
  match df with
  | [] => false
  | _ => forallb (fun r => is_none (col r)) df
  end.

Definition convert_error (col : string) (m : string) : string :=
  "Error while converting column '" ++ col ++ "' to integer: " ++ m.

(** [df[col].astype('int')] on one cell of column [col]: a cell of an
    integer column is left alone. *)
Definition cell_to_int (col : string) (c : num) : result Z :=
  match c with
  | Int z => Ok z
  | Flt f => reraise ValueError (convert_error col) (astype_int f)
  end.

Definition amounts_to_int (a : amounts num) : result (amounts Z) :=
  b <- cell_to_int "balance" (balance a) ;;
  d1 <- cell_to_int "due1-30d" (due1_30d a) ;;
  d2 <- cell_to_int "due31-60d" (due31_60d a) ;;
  d3 <- cell_to_int "due61-90d" (due61_90d a) ;;
  d4 <- cell_to_int "due91-120d" (due91_120d a) ;;
  d5 <- cell_to_int "due>120d" (due_gt120d a) ;;
  ci <- cell_to_int "citotal" (citotal a) ;;
  sa <- cell_to_int "sall12m" (sall12m a) ;;
  Ok (Amounts b d1 d2 d3 d4 d5 ci sa).

Definition row_to_int (r : selected_row num) : result (selected_row Z) :=
  a <- amounts_to_int (sel_amounts r) ;;
  sb <- cell_to_int "secbank" (sel_secbank r) ;;
  so <- cell_to_int "secother" (sel_secother r) ;;
  Ok (SelectedRow (unnamed0 r) (unnamed1 r) (unnamed4 r) a sb so).

(** Every float column is cast to integers; the cast of a column that
    holds a NaN or an infinity raises. When several columns cannot be
    cast, the message names one of them. *)
Definition convert_float_to_int (df : list (selected_row num))
    : result (list (selected_row Z)) :=
  if all_missing unnamed0 df then
    Raise (Exn ValueError (convert_error "unnamed0" cast_error))
  else if all_missing unnamed1 df then
    Raise (Exn ValueError (convert_error "unnamed1" cast_error))
  else if all_missing unnamed4 df then
    Raise (Exn ValueError (convert_error "unnamed4" cast_error))
  else mapM row_to_int df.

Definition rename_row (r : selected_row Z) : named_row :=
  NamedRow (unnamed0 r) (unnamed1 r) (unnamed4 r)
           (sel_amounts r) (sel_secbank r) (sel_secother r).

Definition rename_headers (df : list (selected_row Z)) : list named_row :=
  map rename_row df.

Definition filter_positive_balance (df : list named_row) : list named_row :=
  filter (fun r => 0 <? balance (nr_amounts r)) df.

Definition debtors_to_drop : list string := ["aaa"; "bbb"; "ccc"; "ddd"; "eee"].

(** [Series.str.contains(pat, na=False)] on one cell. *)
Definition str_contains_na_false (alts : list string) (cell : option string) : bool :=
  match cell with
  | Some s => contains_any alts s
  | None => false
  end.

Definition set_debtor_name (f : string -> string) (r : named_row) : named_row :=
  NamedRow (long_credit_account r) (option_map f (nr_debtor_name r))
           (nr_country_code r) (nr_amounts r) (secbank r) (secother r).

Definition filter_col_debtor_name (df : list named_row) : result (list named_row) :=
  let df := map (set_debtor_name py_lower) df in
  let df := filter (fun r => negb (str_contains_na_false debtors_to_drop
                                     (nr_debtor_name r))) df in
  Ok (map (set_debtor_name py_capitalize) df).

(** The number of columns that [str.split('/', expand=True)] produces for
    one cell: a missing cell counts for one. *)
Definition split_width (cell : option string) : nat :=
  match cell with
  | Some s => List.length (py_split "/" s)
  | None => 1%nat
  end.

Definition frame_width (cells : list (option string)) : nat :=
  fold_right Nat.max 0%nat (map split_width cells).

(** Column [i] of the expanded split for one cell: missing when the cell
    is missing or has fewer parts. *)
Definition split_part (cell : option string) (i : nat) : option string :=
  match cell with
  | Some s => nth_error (py_split "/" s) i
  | None => None
  end.

Definition split_one (r : named_row) : split_row :=
  SplitRow (split_part (long_credit_account r) 1)
           (split_part (long_credit_account r) 2)
           (nr_debtor_name r) (nr_country_code r) (nr_amounts r)
           (secbank r) (secother r).

(** The assignment to the three new columns raises unless the expanded
    split has exactly three columns. *)
Definition split_col_long_credit_account (df : list named_row)
    : result (list split_row) :=
  if Nat.eqb (frame_width (map long_credit_account df)) 3 then Ok (map split_one df)
  else Raise (Exn ValueError "Columns must be same length as key").

Definition entity_code_to_drop : list string := ["1"; "2"; "3"; "4"].

(** [~df['entity_code'].str.contains(...)] raises a [TypeError] on a
    missing cell, which the [except] clause turns into an [Exception].
    Where it does not raise no cell is missing, and the mask is the one
    that [na=False] gives. *)
Definition filter_col_entity_code (df : list split_row) : result (list split_row) :=
  reraise PyException (fun m => "Error while dropping entities: " ++ m)
    (if existsb (fun r => is_none (sr_entity_code r)) df then
       Raise (Exn TypeError "bad operand type for unary ~: 'float'")
     else
       Ok (filter (fun r => negb (str_contains_na_false entity_code_to_drop
                                    (sr_entity_code r))) df)).

Definition add_security_row (r : split_row) : main_row :=
  MainRow (sr_entity_code r) (sr_credit_account r) (sr_debtor_name r)
          (sr_country_code r) (sr_amounts r) (sr_secbank r + sr_secother r).

Definition add_col_security (df : list split_row) : list main_row :=
  map add_security_row df.

Definition pre_transform_data (df : frame) : result (list main_row) :=
  df <- adjust_select_columns df ;;
  df <- convert_float_to_int df ;;
  let df := rename_headers df in
  let df := filter_positive_balance df in
  df <- filter_col_debtor_name df ;;
  df <- split_col_long_credit_account df ;;
  df <- filter_col_entity_code df ;;
  Ok (add_col_security df).

(* ================================================================= *)
(** ** 1.2.2 Transform *)

Definition key_matches (k : option string) (g : region_row) : bool :=
  match k with
  | Some s => String.eqb s (rg_entity_code g)
  | None => false
  end.

(** [pd.merge(df_main, d_region, how='left', on='entity_code')]: every
    left row, in order, once per matching reference row; a left row
    without a match is kept once with missing [region] and [tax_rate]. *)
Definition merge_left (df_main : list main_row) (d_region : list region_row)
    : list joined_row :=
  flat_map
    (fun r =>
       match filter (key_matches (entity_code r)) d_region with
       | [] => [JoinedRow r None S754_nan]
       | ms => map (fun g => JoinedRow r (rg_region g) (rg_tax_rate g)) ms
       end)
    df_main.

Definition join_main_and_dregion (df_main : list main_row)
    (d_region : list region_row) : result (list joined_row) :=
  Ok (merge_left df_main d_region).

(** The float column [np.maximum(uninsured_balance, 0)], one cell. *)
Definition uninsured_balance_adj (r : joined_row) : spec_float :=
  let m := jr_main r in
  let balance_minus_colateral_gross := balance (amts m) - security m in
  let tax_rate_plus1 := f64_add (float_of_Z 1) (tax_rate r) in
  let uninsured_balance :=
    f64_sub (f64_div (float_of_Z balance_minus_colateral_gross) tax_rate_plus1)
            (float_of_Z (citotal (amts m))) in
  np_maximum0 uninsured_balance.

Definition calculate_row (r : joined_row) : result enriched_row :=
  u <- astype_int (uninsured_balance_adj r) ;;
  Ok (EnrichedRow (jr_main r) (jr_region r) u).

Definition calculate_uninsured_balance (df : list joined_row)
    : result (list enriched_row) :=
  reraise PyException (fun m => "Error while calculating uninsured balance: " ++ m)
    (mapM calculate_row df).

(** *** Group-by *)

Section GroupBy.
Variables (R K : Type).
Variable cmp : K -> K -> comparison.
Variable key : R -> option K.

Definition key_eqb (a b : K) : bool :=
  match cmp a b with
  | Eq => true
  | _ => false
  end.

(** Insert a key into a sorted list of distinct keys. *)
Fixpoint insert_key (k : K) (l : list K) : list K :=
  match l with
  | [] => [k]
  | x :: xs =>
      match cmp k x with
      | Lt => k :: l
      | Eq => l
      | Gt => x :: insert_key k xs
      end
  end.

(** The keys present in the table: missing keys are dropped. *)
Definition present_keys (df : list R) : list K :=
  flat_map (fun r => match key r with Some k => [k] | None => [] end) df.

Definition group_keys (df : list R) : list K :=
  fold_right insert_key [] (present_keys df).

Definition in_group (k : K) (r : R) : bool :=
  match key r with
  | Some k' => key_eqb k' k
  | None => false
  end.

(** [df.groupby(key)]: the groups in increasing key order, each with
    its rows in table order. *)
Definition groupby (df : list R) : list (K * list R) :=
  map (fun k => (k, filter (in_group k) df)) (group_keys df).
End GroupBy.
Arguments key_eqb {K}.
Arguments insert_key {K}.
Arguments present_keys {R K}.
Arguments group_keys {R K}.
Arguments in_group {R K}.
Arguments groupby {R K}.

(** *** Top 40 by region *)

Definition er_balance (r : enriched_row) : Z := balance (amts (er_main r)).

(** Stable insertion by decreasing balance: [x] goes before the first row
    whose balance is not larger. *)
Fixpoint insert_desc (x : enriched_row) (l : list enriched_row) : list enriched_row :=
  match l with
  | [] => [x]
  | y :: l' =>
      if er_balance y <=? er_balance x then x :: l
      else y :: insert_desc x l'
  end.

Definition sort_desc (l : list enriched_row) : list enriched_row :=
  fold_right insert_desc [] l.

(** [x.nlargest(n, 'balance')]: the first [n] rows of the table sorted by
    decreasing balance, ties in table order. *)
Definition nlargest (n : nat) (x : list enriched_row) : list enriched_row :=
  firstn n (sort_desc x).

(** [df.groupby('region').apply(lambda x: x.nlargest(40, 'balance'))] *)
Definition top40_grouped (df : list enriched_row) : list enriched_row :=
  flat_map (fun g => nlargest 40 (snd g)) (groupby String.compare region df).

Definition get_top40_by_region (df : list enriched_row) (reporting_date : datetime)
    : result (list top40_row) :=
  Ok (map (fun r => Top40Row reporting_date (er_main r) (uninsured_balance r))
          (top40_grouped df)).

(** *** Aggregate by entity and country *)

Definition pair_compare (a b : string * string) : comparison :=
  match String.compare (fst a) (fst b) with
  | Eq => String.compare (snd a) (snd b)
  | c => c
  end.

Definition agg_key (r : enriched_row) : option (string * string) :=
  match entity_code (er_main r), country_code (er_main r) with
  | Some e, Some c => Some (e, c)
  | _, _ => None
  end.

Definition sumZ {R : Type} (f : R -> Z) (l : list R) : Z :=
  fold_right (fun r acc => f r + acc) 0 l.

Definition agg_group (reporting_date : datetime)
    (g : (string * string) * list enriched_row) : agg_row :=
  let rs := snd g in
  let col (f : amounts Z -> Z) := sumZ (fun r => f (amts (er_main r))) rs in
  AggRow reporting_date (fst (fst g)) (snd (fst g))
         (col balance) (sumZ uninsured_balance rs)
         (col due1_30d) (col due31_60d) (col due61_90d) (col due91_120d)
         (col due_gt120d) (col sall12m).

Definition get_agg_by_entity_country (df : list enriched_row)
    (reporting_date : datetime) : result (list agg_row) :=
  Ok (map (agg_group reporting_date) (groupby pair_compare agg_key df)).

(** The table that both views are computed from. *)
Definition joined_table (df_main : frame) (d_region : list region_row)
    : result (list enriched_row) :=
  df_main <- pre_transform_data df_main ;;
  df_joined <- join_main_and_dregion df_main d_region ;;
  calculate_uninsured_balance df_joined.

Definition transform_data (df_main : frame) (reporting_date : datetime)
    (d_region : list region_row) : result (list top40_row * list agg_row) :=
  df_joined <- joined_table df_main d_region ;;
  df_top40_by_region <- get_top40_by_region df_joined reporting_date ;;
  df_entity_country <- get_agg_by_entity_country df_joined reporting_date ;;
  Ok (df_top40_by_region, df_entity_country).

(* ================================================================= *)
(** ** 1.4 File paths *)

(** The [etl_parameters] sheet: its headers and, for every row, the cells
    under [Description] and [Path]. *)
Record param_sheet : Type := ParamSheet {
  ps_columns : list string;
  ps_rows : list (string * string)
}.

(** [d[k] = v] on an insertion-ordered dictionary: an existing key keeps
    its place and takes the new value. *)
Fixpoint dict_set (k v : string) (d : list (string * string)) : list (string * string) :=
  match d with
  | [] => [(k, v)]
  | (k', v') :: d' =>
      if String.eqb k k' then (k', v) :: d' else (k', v') :: dict_set k v d'
  end.

(** [parameters.set_index('Description')['Path'].to_dict()] *)
Definition to_dict (rows : list (string * string)) : list (string * string) :=
  fold_left (fun d kv => dict_set (fst kv) (snd kv) d) rows [].

Definition dict_values (d : list (string * string)) : list string := map snd d.

(** [etl_parameter_path] on the sheet that [pd.read_excel] returned; a
    failure of the read itself is outside this function. *)
Definition three_rows_error : exn :=
  Exn ValueError "The 'etl_parameters' sheet must contain exactly three rows.".

Definition etl_parameter_path (sheet : param_sheet) : result (string * string * string) :=
  if (py_in "Description" (ps_columns sheet) && py_in "Path" (ps_columns sheet))%bool
  then
    let parameter_paths := to_dict (ps_rows sheet) in
    match dict_values parameter_paths with
    | [folder_path_raw_data; file_path_dregion; folder_path_export] =>
        Ok (folder_path_raw_data, file_path_dregion, folder_path_export)
    | _ => Raise three_rows_error
    end
  else
    Raise (Exn KeyError
             "The 'etl_parameters' sheet must have 'Description' and 'Path' columns.").

(* ================================================================= *)
(** ** Vocabulary of the statements *)

(** The file names that the pattern of [get_date_from_filename] accepts:
    [ARM_], ten date characters, [.xlsx], and what [$] lets follow. *)
Definition date_chars (y1 y2 y3 y4 m1 m2 d1 d2 : ascii) : string :=
  String y1 (String y2 (String y3 (String y4 (String "-"
    (String m1 (String m2 (String "-" (String d1 (String d2 EmptyString))))))))).

Definition arm_name (y1 y2 y3 y4 m1 m2 d1 d2 : ascii) (tl : string) : string :=
  "ARM_" ++ String y1 (String y2 (String y3 (String y4 (String "-"
    (String m1 (String m2 (String "-" (String d1 (String d2 (".xlsx" ++ tl)))))))))).


(** The rows of region [g]. *)
Definition in_region (g : string) (r : enriched_row) : bool :=
  match region r with
  | Some g' => String.eqb g' g
  | None => false
  end.

Definition ge_balance (a b : enriched_row) : Prop := er_balance b <= er_balance a.

(** The rows that take part in the aggregate view: both keys present. *)
Definition has_agg_key (r : enriched_row) : bool := negb (is_none (agg_key r)).

(** What the pre-transform filters leave: a positive balance, a debtor
    name free of the excluded names in any letter case, an entity code
    free of the excluded codes. *)
Definition passes_filters (m : main_row) : Prop :=
  0 < balance (amts m)
  /\ str_contains_na_false debtors_to_drop (option_map py_lower (debtor_name m)) = false
  /\ str_contains_na_false entity_code_to_drop (entity_code m) = false.

(** The tax rate [0,10] of the reference file: the binary64 nearest to
    one tenth. *)
Definition tax_rate_010 : spec_float := f64_div (float_of_Z 1) (float_of_Z 10).

(** A spreadsheet with one data row: account [account], debtor [debtor],
    balance 1000, securities 150 and 50, credit-insurance total 100. *)
Definition example_columns : list string :=
  ["Unnamed: 0"; "Unnamed: 1"; "Unnamed: 2"; "Unnamed: 3"; "Unnamed: 4";
   "Balance"; "Due 1-30 d."; "Due 31-60 d."; "Due 61-90 d."; "Due 91-120 d.";
   "Due >120 d."; "CI total"; "S all 12m"; "Sec. bank"; "Sec. other"].

Definition example_row (account debtor : string) : selected_row num :=
  SelectedRow (Some account) (Some debtor) (Some "PL")
    (Amounts (Int 1000) (Int 0) (Int 0) (Int 0) (Int 0) (Int 0) (Int 100) (Int 0))
    (Int 150) (Flt (float_of_Z 50)).

Definition example_frame (account debtor : string) : frame :=
  Frame example_columns [example_row account debtor].

Definition example_regions (code : string) : list region_row :=
  [RegionRow code (Some "EMEA") tax_rate_010].

Definition example_main (code : string) : main_row :=
  MainRow (Some code) (Some "456") (Some "Acme") (Some "PL")
          (Amounts 1000 0 0 0 0 0 100 0) 200.

Definition example_named (debtor : string) : named_row :=
  NamedRow (Some "5/567/456") (Some debtor) (Some "PL")
           (Amounts 1000 0 0 0 0 0 100 0) 150 50.

(** The spreadsheet of the worked example with a second account in
    front of it, and a reference table that lists both entity codes. *)
Definition two_account_frame : frame :=
  Frame example_columns
        [example_row "5/123/456" "Acme"; example_row "5/567/456" "Acme"].

Definition two_code_regions : list region_row :=
  [RegionRow "123" (Some "EMEA") tax_rate_010;
   RegionRow "567" (Some "EMEA") tax_rate_010].

(** A spreadsheet with one account of balance 9 * 10^18 and nothing
    else, and a reference table with the tax rate -0.5. *)
Definition large_balance_main : main_row :=
  MainRow (Some "567") (Some "456") (Some "Acme") (Some "PL")
          (Amounts 9000000000000000000 0 0 0 0 0 0 0) 0.

Definition large_balance_frame : frame :=
  Frame example_columns
    [SelectedRow (Some "5/567/456") (Some "Acme") (Some "PL")
       (Amounts (Int 9000000000000000000) (Int 0) (Int 0) (Int 0) (Int 0) (Int 0)
                (Int 0) (Int 0))
       (Int 0) (Int 0)].

Definition negative_half : spec_float := f64_div (float_of_Z (-1)) (float_of_Z 2).

Definition negative_half_regions : list region_row :=
  [RegionRow "567" (Some "EMEA") negative_half].

Definition empty_read : string -> list nat -> nat -> result frame :=
  fun _ _ _ => Ok (Frame [] []).

(* ================================================================= *)
(** ** 1.2.2 Transform and 1.3 Export, with their reads and writes *)

(** The region reference file as [pd.read_csv] returns it: its headers
    and, for every line, the cells under [entity_code], [region] and
    [tax_rate]. *)
Record region_file : Type := RegionFile {
  rf_columns : list string;
  rf_rows : list region_row
}.

(** One of the two report tables handed to [to_csv]. *)
Inductive report : Type :=
| TopReport (df : list top40_row)
| AggReport (df : list agg_row).

(** What a run does to the outside world, in order. *)
Inductive etl_event : Type :=
| SheetRead (e : io_event)
| CsvRead (filepath : string)
| CsvWrite (path : string) (df : report)
| ErrorLogged (msg : string)
| ProgressTick.

(** A step of the run: its result and the events it caused. *)
Definition io (A : Type) : Type := (result A * list etl_event)%type.

Definition io_bind {A B : Type} (m : io A) (k : A -> io B) : io B :=
  match m with
  | (Ok a, ev) => let '(r, ev') := k a in (r, (ev ++ ev')%list)
  | (Raise e, ev) => (Raise e, ev)
  end.

Definition io_lift {A : Type} (r : result A) : io A := (r, []).

Definition is_file_not_found (e : exn) : bool :=
  match exn_class e with
  | FileNotFoundError => true
  | _ => false
  end.

Definition dropped_region_columns : list string := ["entity_name"; "vat_insured"].

Section Run.

(** [pd.read_excel], [pd.read_csv], [DataFrame.to_csv] and [os.listdir]. *)
Variable pd_read_excel : string -> list nat -> nat -> result frame.
Variable pd_read_csv : string -> result region_file.
Variable df_to_csv : string -> report -> result unit.

(** [d_region.drop(columns=['entity_name', 'vat_insured'])] raises a
    [KeyError] that names the labels it does not find. *)
Definition drop_region_columns (d_region : region_file) : result (list region_row) :=
  match filter (fun c => negb (py_in c (rf_columns d_region))) dropped_region_columns with
  | [] => Ok (rf_rows d_region)
  | missing =>
      Raise (Exn KeyError
               ("['" ++ String.concat "', '" missing ++ "'] not found in axis"))
  end.

Definition get_regions_df (filepath : string) : io (list region_row) :=
  (match (d_region <- pd_read_csv filepath ;; drop_region_columns d_region) with
   | Ok d_region => Ok d_region
   | Raise e =>
       if is_file_not_found e
       then Raise (Exn FileNotFoundError
                     ("File not found at '" ++ filepath ++ "': " ++ exn_str e))
       else Raise (Exn PyException ("Error reading the CSV file: " ++ exn_str e))
   end,
   [CsvRead filepath]).

(** [transform_data] as the source has it: the reference file is read
    after the pre-transform and before the join. *)
Definition transform_data_io (df_main : frame) (reporting_date : datetime)
    (filepath_dregion : string) : io (list top40_row * list agg_row) :=
  io_bind (io_lift (pre_transform_data df_main)) (fun df_main =>
  io_bind (get_regions_df filepath_dregion) (fun df_region =>
  io_lift
    (df_joined <- join_main_and_dregion df_main df_region ;;
     df_joined <- calculate_uninsured_balance df_joined ;;
     df_top40_by_region <- get_top40_by_region df_joined reporting_date ;;
     df_entity_country <- get_agg_by_entity_country df_joined reporting_date ;;
     Ok (df_top40_by_region, df_entity_country)))).

Definition export_path (destination_path df_export_name reporting_date : string)
    : string :=
  let export_name := "arm_" ++ df_export_name ++ "_" ++ reporting_date ++ ".csv" in
  destination_path ++ "/" ++ export_name.

Definition load_to_csv (destination_path : string) (df : report)
    (df_export_name reporting_date : string) : io unit :=
  let destination_path_file :=
    export_path destination_path df_export_name reporting_date in
  (match df_to_csv destination_path_file df with
   | Ok u => Ok u
   | Raise e =>
       Raise (Exn PyException
                ("Error occurred while exporting the DataFrame " ++ df_export_name
                 ++ " to CSV: " ++ exn_str e))
   end,
   [CsvWrite destination_path_file df]).

Definition load_data (destination_path reporting_date : string)
    (df_top40 : list top40_row) (df_agg : list agg_row) : io unit :=
  io_bind
    (load_to_csv destination_path (TopReport df_top40) "top40_by_region"
                 reporting_date)
    (fun _ =>
       load_to_csv destination_path (AggReport df_agg) "agg_by_region_country"
                   reporting_date).

(** The body of the [try] of [main] for one file. *)
Definition etl_file (folder_path_raw_data file_path_dregion folder_path_export
    item : string) : io unit :=
  io_bind
    (let '(r, ev) := extract_data pd_read_excel folder_path_raw_data item [] in
     (r, map SheetRead ev))
    (fun '(df, date_str, date_datetime) =>
  io_bind (transform_data_io df date_datetime file_path_dregion)
    (fun '(df_top40_by_region, df_agg_entity_country) =>
  load_data folder_path_export date_str df_top40_by_region df_agg_entity_country)).

(** One turn of the loop of [main]: an exception is logged and the loop
    goes on; the progress bar advances on success only. *)
Definition process_file (folder_path_raw_data file_path_dregion folder_path_export
    item : string) : list etl_event :=
  match etl_file folder_path_raw_data file_path_dregion folder_path_export item with
  | (Ok _, ev) => (ev ++ [ProgressTick])%list
  | (Raise e, ev) =>
      (ev ++ [ErrorLogged ("Failed to execute ETL on file " ++ item ++ ": "
                           ++ exn_str e)])%list
  end.

Fixpoint etl_loop (folder_path_raw_data file_path_dregion folder_path_export : string)
    (files_in_folder : list string) : list etl_event :=
  match files_in_folder with
  | [] => []
  | item :: rest =>
      (process_file folder_path_raw_data file_path_dregion folder_path_export item
       ++ etl_loop folder_path_raw_data file_path_dregion folder_path_export rest)%list
  end.

(** [main] of [etl_application.py], from the parameter sheet and the
    listing of the raw-data folder on. *)
Definition main (sheet : param_sheet) (os_listdir : string -> result (list string))
    : io unit :=
  match etl_parameter_path sheet with
  | Raise e => (Raise e, [])
  | Ok (folder_path_raw_data, file_path_dregion, folder_path_export) =>
      match os_listdir folder_path_raw_data with
      | Raise e => (Raise e, [])
      | Ok files_in_folder =>
          (Ok tt, etl_loop folder_path_raw_data file_path_dregion
                           folder_path_export files_in_folder)
      end
  end.

End Run.

(* ================================================================= *)
(** ** Vocabulary of the further statements *)

(** What the pre-transform makes of one row whose cells are integers. *)
Definition main_of_selected (r : selected_row Z) : main_row :=
  add_security_row
    (split_one
       (set_debtor_name py_capitalize (set_debtor_name py_lower (rename_row r)))).

Definition is_write (e : etl_event) : bool :=
  match e with
  | CsvWrite _ _ => true
  | _ => false
  end.

Definition is_sheet_read (e : etl_event) : bool :=
  match e with
  | SheetRead _ => true
  | _ => false
  end.

(** The events that close the turn of one file. *)
Definition closes_file (e : etl_event) : bool :=
  match e with
  | ErrorLogged _ | ProgressTick => true
  | _ => false
  end.

Definition dict_get (k : string) (d : list (string * string)) : option string :=
  option_map snd (find (fun kv => String.eqb k (fst kv)) d).

(** The ten numeric cells of a row, in column order. *)
Definition numeric_cells {A : Type} (r : selected_row A) : list A :=
  let a := sel_amounts r in
  [balance a; due1_30d a; due31_60d a; due61_90d a; due91_120d a; due_gt120d a;
   citotal a; sall12m a; sel_secbank r; sel_secother r].

(** The integer that a numeric cell stands for: itself, or the float
    truncated toward zero and cast to [int64]; a NaN or an infinity
    stands for none. *)
Definition cell_value (c : num) : option Z :=
  match c with
  | Int z => Some z
  | Flt f => option_map cast_int64 (trunc_float f)
  end.

(** An account made of three segments. *)
Definition account_of (p e c : string) : string := p ++ "/" ++ e ++ "/" ++ c.

(** The headers of a frame after [adjust_col_headers]. *)
Definition adjusted_columns (df : frame) : list string :=
  map adjust_header (columns df).

(** The number of distinct descriptions of a parameter sheet. *)
Definition distinct_descriptions (rows : list (string * string)) : nat :=
  List.length (nodup string_dec (map fst rows)).

(** The path of the last row whose description is [k]. *)
Definition last_path (k : string) (rows : list (string * string)) : option string :=
  dict_get k (rev rows).

(* ================================================================= *)
(** * Properties *)

(** ** Results *)

Lemma some_inj {A : Type} (a b : A) : Some a = Some b -> a = b.
Proof. congruence. Qed.


Lemma bind_ok {A B : Type} (r : result A) (k : A -> result B) (b : B) :
  bind r k = Ok b -> exists a, r = Ok a /\ k a = Ok b.
Proof. destruct r as [a|e]; simpl; [eauto|discriminate]. Qed.

Lemma reraise_ok {A : Type} (k : exn_kind) (f : string -> string)
    (body : result A) (a : A) :
  reraise k f body = Ok a -> body = Ok a.
Proof. destruct body; simpl; [auto|discriminate]. Qed.

Lemma mapM_ok {A B : Type} (f : A -> result B) (l : list A) (out : list B) :
  mapM f l = Ok out -> Forall2 (fun x y => f x = Ok y) l out.
Proof.
  revert out. induction l as [|x xs IH]; simpl; intros out H.
  - injection H as <-. constructor.
  - apply bind_ok in H. destruct H as (y & Hy & H).
    apply bind_ok in H. destruct H as (ys & Hys & H).
    injection H as <-. constructor; auto.
Qed.

(** If one element fails and every failure is the same exception, the
    traversal fails with it. *)
Lemma mapM_raise {A B : Type} (f : A -> result B) (l : list A) (e0 : exn) (x : A) :
  In x l -> f x = Raise e0 ->
  (forall y e, f y = Raise e -> e = e0) ->
  mapM f l = Raise e0.
Proof.
  intros Hin Hx Hall. induction l as [|a l IH]; [contradiction|].
  simpl. destruct (f a) as [b|e] eqn:Ha; simpl.
  - destruct Hin as [->|Hin]; [congruence|].
    rewrite (IH Hin). reflexivity.
  - f_equal. eauto.
Qed.

(** ** Characters and digits *)

Ltac ascii_cases c := destruct c as [[] [] [] [] [] [] [] []].


Lemma is_digit_not_sep (c : ascii) :
  is_digit c = true ->
  Ascii.eqb c "_" = false /\ Ascii.eqb c "." = false /\ Ascii.eqb c "-" = false.
Proof. ascii_cases c; intros H; try discriminate H; vm_compute; auto. Qed.



(** ** The file name and its date *)
Lemma match_prefix_cons (p : pat_item) (pat : list pat_item) (s r : string) :
  match_prefix (p :: pat) s = Some r ->
  exists c s', s = String c s' /\ item_matches p c = true
               /\ match_prefix pat s' = Some r.
Proof.
  destruct s as [|c s']; cbn [match_prefix]; [discriminate|].
  destruct (item_matches p c) eqn:E; [|discriminate].
  intros H. exists c, s'. repeat split; assumption.
Qed.

Ltac pattern_step H :=
  let c := fresh "c" in
  let s := fresh "s" in
  let E := fresh "E" in
  let Hc := fresh "Hc" in
  apply match_prefix_cons in H; destruct H as (c & s & E & Hc & H);
  subst; cbn [item_matches] in Hc; try (apply Ascii.eqb_eq in Hc; subst c).


Lemma re_match_filename_inv (file_name : string) :
  re_match_filename file_name = true ->
  exists y1 y2 y3 y4 m1 m2 d1 d2 tl,
    file_name = arm_name y1 y2 y3 y4 m1 m2 d1 d2 tl
    /\ Forall (fun c => is_digit c = true) [y1; y2; y3; y4; m1; m2; d1; d2]
    /\ (tl = EmptyString \/ tl = String newline EmptyString).
Proof.
  unfold re_match_filename.
  destruct (match_prefix filename_pattern file_name) as [r|] eqn:H; [|discriminate].
  intros Hr.
  assert (Htl : r = EmptyString \/ r = String newline EmptyString).
  { destruct r as [|c [|? ?]]; try discriminate Hr; auto.
    apply Ascii.eqb_eq in Hr. subst. auto. }
  clear Hr.
  set (p := filename_pattern) in H. vm_compute in p. subst p.
  do 19 pattern_step H.
  cbn [match_prefix] in H. injection H as H. subst.
  do 9 eexists. split; [reflexivity|]. split; [|exact Htl].
  repeat constructor; assumption.
Qed.


Lemma get_date_arm_name y1 y2 y3 y4 m1 m2 d1 d2 tl :
  Forall (fun c => is_digit c = true) [y1; y2; y3; y4; m1; m2; d1; d2] ->
  tl = EmptyString \/ tl = String newline EmptyString ->
  py_index (py_split "_" (arm_name y1 y2 y3 y4 m1 m2 d1 d2 tl)) 1 
  = Ok (String y1 (String y2 (String y3 (String y4 (String "-"
    (String m1 (String m2 (String "-" (String d1 (String d2 (".xlsx" ++ tl))))))))))).
Proof.
  intros Hd Htl.
  repeat match goal with
         | H : Forall _ (_ :: _) |- _ => inversion H; subst; clear H
         | H : Forall _ [] |- _ => clear H
         end.
  repeat match goal with
         | H : is_digit _ = true |- _ =>
             apply is_digit_not_sep in H; destruct H as (? & ? & ?)
         end.
  unfold arm_name.
  destruct Htl; subst tl; cbn; 
    repeat match goal with H : Ascii.eqb _ _ = false |- _ => rewrite H; cbn end;
    reflexivity.
Qed.


Ltac split_digits :=
  repeat match goal with
         | H : Forall _ (_ :: _) |- _ => inversion H; subst; clear H
         | H : Forall _ [] |- _ => clear H
         end.

Lemma get_date_from_arm_name y1 y2 y3 y4 m1 m2 d1 d2 tl :
  Forall (fun c => is_digit c = true) [y1; y2; y3; y4; m1; m2; d1; d2] ->
  tl = EmptyString \/ tl = String newline EmptyString ->
  get_date_from_filename (arm_name y1 y2 y3 y4 m1 m2 d1 d2 tl)
  = Ok (date_chars y1 y2 y3 y4 m1 m2 d1 d2).
Proof.
  intros Hd Htl. unfold get_date_from_filename.
  assert (Hm : re_match_filename (arm_name y1 y2 y3 y4 m1 m2 d1 d2 tl) = true).
  { split_digits. unfold re_match_filename, arm_name.
    destruct Htl; subst tl; cbn;
      repeat match goal with H : is_digit _ = true |- _ => rewrite H; clear H end;
      reflexivity. }
  rewrite Hm, get_date_arm_name by assumption.
  cbn [bind]. split_digits.
  repeat match goal with
         | H : is_digit _ = true |- _ =>
             apply is_digit_not_sep in H; destruct H as (? & ? & ?)
         end.
  destruct Htl; subst tl; cbn;
    repeat match goal with H : Ascii.eqb _ _ = false |- _ => rewrite H; cbn end;
    reflexivity.
Qed.







Lemma digit_char_props (k : Z) :
  0 <= k <= 9 -> is_digit (digit_char k) = true /\ digit_val (digit_char k) = k.
Proof.
  intros H.
  assert (C : k = 0 \/ k = 1 \/ k = 2 \/ k = 3 \/ k = 4 \/ k = 5 \/ k = 6
              \/ k = 7 \/ k = 8 \/ k = 9) by lia.
  repeat (destruct C as [-> | C]; [vm_compute; auto|]). subst. vm_compute; auto.
Qed.

Lemma parse_month_pad2 (m : Z) (r : string) :
  1 <= m <= 12 ->
  parse_month (pad2 m ++ String "-" r) = Some (m, String "-" r).
Proof.
  intros H.
  assert (C : m = 1 \/ m = 2 \/ m = 3 \/ m = 4 \/ m = 5 \/ m = 6 \/ m = 7
              \/ m = 8 \/ m = 9 \/ m = 10 \/ m = 11 \/ m = 12) by lia.
  repeat (destruct C as [-> | C]; [reflexivity|]). subst. reflexivity.
Qed.

Lemma parse_day_pad2 (d : Z) :
  1 <= d <= 31 -> parse_day (pad2 d) = Some (d, EmptyString).
Proof.
  intros H.
  assert (C : (d = 1 \/ d = 2 \/ d = 3 \/ d = 4 \/ d = 5 \/ d = 6 \/ d = 7
              \/ d = 8 \/ d = 9 \/ d = 10) \/ (d = 11 \/ d = 12 \/ d = 13 \/ d = 14
              \/ d = 15 \/ d = 16 \/ d = 17 \/ d = 18 \/ d = 19 \/ d = 20)
              \/ (d = 21 \/ d = 22 \/ d = 23 \/ d = 24 \/ d = 25 \/ d = 26
              \/ d = 27 \/ d = 28 \/ d = 29 \/ d = 30 \/ d = 31)) by lia.
  destruct C as [C | [C | C]];
    repeat (destruct C as [-> | C]; [reflexivity|]); subst; reflexivity.
Qed.

Lemma days_in_month_le (y m : Z) : days_in_month y m <= 31.
Proof.
  unfold days_in_month.
  repeat match goal with |- context [if ?b then _ else _] => destruct b end; lia.
Qed.

Lemma strptime_isoformat (y m d : Z) :
  valid_date y m d = true ->
  strptime_ymd (isoformat (Datetime y m d)) = Some (Datetime y m d).
Proof.
  intros V. pose proof V as V'. unfold valid_date in V'.
  repeat (apply andb_true_iff in V'; destruct V' as [V' ?]).
  repeat match goal with H : (_ <=? _) = true |- _ => apply Z.leb_le in H end.
  pose proof (days_in_month_le y m) as Hdim.
  unfold isoformat, pad4. cbn [year month day].
  set (a := y / 1000 mod 10). set (b := y / 100 mod 10).
  assert (Ha : 0 <= a <= 9) by (subst a; Z.div_mod_to_equations; lia).
  assert (Hb : 0 <= b <= 9) by (subst b; Z.div_mod_to_equations; lia).
  unfold pad2 at 1.
  set (c := y / 10 mod 10). set (e := y mod 10).
  assert (Hc : 0 <= c <= 9) by (subst c; Z.div_mod_to_equations; lia).
  assert (He : 0 <= e <= 9) by (subst e; Z.div_mod_to_equations; lia).
  assert (Hy : 1000 * a + 100 * b + 10 * c + e = y)
    by (subst a b c e; Z.div_mod_to_equations; lia).
  destruct (digit_char_props a Ha) as [Da Va].
  destruct (digit_char_props b Hb) as [Db Vb].
  destruct (digit_char_props c Hc) as [Dc Vc].
  destruct (digit_char_props e He) as [De Ve].
  cbn [append]. unfold strptime_ymd.
  rewrite Da, Db, Dc, De. cbn [andb Ascii.eqb Bool.eqb].
  rewrite parse_month_pad2 by lia. cbn [Ascii.eqb Bool.eqb].
  rewrite parse_day_pad2 by lia.
  rewrite Va, Vb, Vc, Ve, Hy, V. reflexivity.
Qed.

Lemma pad2_is_digits (n : Z) :
  0 <= n ->
  exists a b, pad2 n = String a (String b EmptyString)
              /\ is_digit a = true /\ is_digit b = true.
Proof.
  intros H. unfold pad2. do 2 eexists. split; [reflexivity|].
  split; apply digit_char_props; Z.div_mod_to_equations; lia.
Qed.

(** Every calendar date of the years 1 to 9999, written into a file name
    of the accepted form, is extracted and converted. *)
Lemma valid_date_converts (y m d : Z) :
  valid_date y m d = true ->
  date_str_datetime ("ARM_" ++ isoformat (Datetime y m d) ++ ".xlsx")
  = Ok (isoformat (Datetime y m d), Datetime y m d).
Proof.
  intros V. pose proof (strptime_isoformat y m d V) as P.
  unfold valid_date in V.
  repeat (apply andb_true_iff in V; destruct V as [V ?]).
  repeat match goal with H : (_ <=? _) = true |- _ => apply Z.leb_le in H end.
  apply Z.leb_le in V.
  unfold date_str_datetime.
  assert (G : get_date_from_filename ("ARM_" ++ isoformat (Datetime y m d) ++ ".xlsx")
              = Ok (isoformat (Datetime y m d))).
  { unfold isoformat, pad4. cbn [year month day].
    destruct (pad2_is_digits y) as (c & e & -> & Dc & De); [lia|].
    destruct (pad2_is_digits m) as (m1 & m2 & -> & Dm1 & Dm2); [lia|].
    destruct (pad2_is_digits d) as (d1 & d2 & -> & Dd1 & Dd2); [lia|].
    apply (get_date_from_arm_name _ _ c e m1 m2 d1 d2 EmptyString); [|auto].
    repeat constructor; try assumption;
      apply digit_char_props; Z.div_mod_to_equations; lia. }
  rewrite G. cbn [bind]. rewrite P. reflexivity.
Qed.




(** ** Extraction reads nothing on a format failure *)

(** C8, as amended. [extract_data] strips the file name first. When the
    stripped name does not match the pattern, it raises the format
    [ValueError] and the log of reads is unchanged. *)
Theorem extract_rejects_before_read
    (pd_read_excel : string -> list nat -> nat -> result frame)
    (folder_path file_name : string) (log : list io_event) :
  re_match_filename (py_strip file_name) = false ->
  extract_data pd_read_excel folder_path file_name log
  = (Raise (format_error (py_strip file_name)), log).
Proof.
  intros H. unfold extract_data, trim_string, date_str_datetime,
    get_date_from_filename.
  rewrite H. reflexivity.
Qed.

Lemma extract_rejects_before_read_witness :
  re_match_filename (py_strip "ARM_2023-01.xlsx ") = false
  /\ extract_data empty_read "data" "ARM_2023-01.xlsx " []
     = (Raise (format_error (py_strip "ARM_2023-01.xlsx ")), []).
Proof.
  split; [reflexivity|].
  apply (extract_rejects_before_read empty_read "data" "ARM_2023-01.xlsx " []).
  reflexivity.
Defined.

(** C8 as stated fails: a name with a leading blank does not match the
    pattern, and [extract_data] reads the spreadsheet all the same. *)
Lemma padded_name_is_read :
  re_match_filename " ARM_2023-01-15.xlsx" = false
  /\ extract_data empty_read "data" " ARM_2023-01-15.xlsx" []
     = (Ok (Frame [] [], "2023-01-15", Datetime 2023 1 15),
        [ReadExcel "data/ARM_2023-01-15.xlsx" top_rows_to_skip 15]).
Proof. split; reflexivity. Qed.

(* ================================================================= *)
(** ** The uninsured balance *)

Lemma trunc_positive_nonneg (m : positive) (e z : Z) :
  trunc_float (S754_finite false m e) = Some z -> 0 <= z.
Proof.
  unfold trunc_float. intros H. apply some_inj in H. subst z.
  cbn [cond_Zopp]. destruct e as [|p|p].
  - apply Z.mul_nonneg_nonneg; [lia|]. apply Z.pow_nonneg. lia.
  - apply Z.mul_nonneg_nonneg; [lia|]. apply Z.pow_nonneg. lia.
  - apply Z.div_pos; [lia|]. apply Z.pow_pos_nonneg; lia.
Qed.

Lemma trunc_maximum0_nonneg (x : spec_float) (z : Z) :
  trunc_float (np_maximum0 x) = Some z -> 0 <= z.
Proof.
  unfold np_maximum0, f64_zero, SFcompare.
  destruct x as [s|s| |s m e]; [| destruct s | | destruct s]; cbv beta iota.
  - intros H. apply some_inj in H. lia.
  - intros H. apply some_inj in H. lia.
  - discriminate.
  - discriminate.
  - intros H. apply some_inj in H. lia.
  - apply trunc_positive_nonneg.
Qed.

Lemma cast_int64_nonneg (z : Z) :
  0 <= z -> cast_int64 z = if z <? 2 ^ 63 then z else - 2 ^ 63.
Proof.
  intros H.
  assert (E1 : int64_min = -9223372036854775808) by reflexivity.
  assert (E2 : int64_max = 9223372036854775807) by reflexivity.
  assert (E3 : 2 ^ 63 = 9223372036854775808) by reflexivity.
  unfold cast_int64, in_int64. rewrite E1, E2, E3.
  destruct (Z.leb_spec (-9223372036854775808) z),
    (Z.leb_spec z 9223372036854775807),
    (Z.ltb_spec z 9223372036854775808); cbn [andb]; try reflexivity; lia.
Qed.

(** What [calculate_uninsured_balance] stores for one row: the truncation
    of a float that is not negative, cast to [int64]. *)
Lemma calculate_row_value (r : joined_row) (e : enriched_row) :
  calculate_row r = Ok e ->
  exists z,
    trunc_float (uninsured_balance_adj r) = Some z
    /\ 0 <= z
    /\ uninsured_balance e = cast_int64 z.
Proof.
  unfold calculate_row, astype_int. intros H.
  destruct (trunc_float (uninsured_balance_adj r)) as [z|] eqn:T; [|discriminate H].
  cbn [bind] in H. injection H as <-. cbn [uninsured_balance].
  exists z. split; [reflexivity|]. split; [|reflexivity].
  exact (trunc_maximum0_nonneg _ _ T).
Qed.

Lemma calculate_uninsured_balance_ok (df : list joined_row) (out : list enriched_row) :
  calculate_uninsured_balance df = Ok out ->
  Forall2 (fun r e => calculate_row r = Ok e) df out.
Proof.
  unfold calculate_uninsured_balance. intros H.
  apply reraise_ok in H. apply mapM_ok. exact H.
Qed.

Lemma calculate_row_main (r : joined_row) (e : enriched_row) :
  calculate_row r = Ok e -> er_main e = jr_main r.
Proof.
  unfold calculate_row. intros H. apply bind_ok in H.
  destruct H as (u & _ & H). injection H as <-. reflexivity.
Qed.

Lemma Forall2_In_r {A B : Type} (P : A -> B -> Prop) (l : list A) (l' : list B) (y : B) :
  Forall2 P l l' -> In y l' -> exists x, In x l /\ P x y.
Proof.
  induction 1 as [|a b l l' Hab _ IH]; simpl; [contradiction|].
  intros [<-|Hin]; [eauto|].
  destruct (IH Hin) as (x & Hx & Hp). eauto.
Qed.

Lemma joined_table_ok (df : frame) (d_region : list region_row)
    (out : list enriched_row) :
  joined_table df d_region = Ok out ->
  exists df_main,
    pre_transform_data df = Ok df_main
    /\ calculate_uninsured_balance (merge_left df_main d_region) = Ok out.
Proof.
  unfold joined_table, join_main_and_dregion. intros H.
  apply bind_ok in H. destruct H as (df_main & Hpre & H).
  cbn [bind] in H. eauto.
Qed.

(** C2, as amended. Whenever the transform stage produces the joined
    table and no row of it has an uninsured balance that reaches [2^63]
    before the cast to integers, every row of it has a non-negative
    [uninsured_balance]. *)
Theorem uninsured_balance_nonneg_in_range (df : frame) (d_region : list region_row)
    (df_main : list main_row) (df_joined : list enriched_row) (r : enriched_row) :
  pre_transform_data df = Ok df_main ->
  (forall j z, In j (merge_left df_main d_region) ->
     trunc_float (uninsured_balance_adj j) = Some z -> z < 2 ^ 63) ->
  joined_table df d_region = Ok df_joined ->
  In r df_joined ->
  0 <= uninsured_balance r.
Proof.
  intros Hpre Hrange H Hin. apply joined_table_ok in H.
  destruct H as (m & Hm & H). rewrite Hpre in Hm. injection Hm as <-.
  apply calculate_uninsured_balance_ok in H.
  destruct (Forall2_In_r _ _ _ _ H Hin) as (j & Hj & Hc).
  destruct (calculate_row_value _ _ Hc) as (z & Hz & Hpos & Hu).
  specialize (Hrange j z Hj Hz).
  rewrite Hu, (cast_int64_nonneg z Hpos).
  rewrite (proj2 (Z.ltb_lt _ _) Hrange). exact Hpos.
Qed.

Lemma uninsured_balance_nonneg_in_range_witness :
  0 <= uninsured_balance (EnrichedRow (example_main "567") (Some "EMEA") 627).
Proof.
  apply (uninsured_balance_nonneg_in_range
           (example_frame "5/567/456" "Acme") (example_regions "567")
           [example_main "567"]
           [EnrichedRow (example_main "567") (Some "EMEA") 627]).
  - reflexivity.
  - intros j z [<-|[]] Hz. vm_compute in Hz. apply some_inj in Hz. subst z.
    reflexivity.
  - reflexivity.
  - left. reflexivity.
Defined.

(** C2 as stated fails: with a balance of 9 * 10^18 and a tax rate of
    -0.5 the uninsured balance is 1.8 * 10^19 as a float, which the cast
    to [int64] turns into [-2^63]. *)
Lemma large_balance_overflows :
  trunc_float
    (uninsured_balance_adj (JoinedRow large_balance_main (Some "EMEA") negative_half))
  = Some 18000000000000000000
  /\ joined_table large_balance_frame negative_half_regions
     = Ok [EnrichedRow large_balance_main (Some "EMEA") (- 9223372036854775808)]
  /\ - 9223372036854775808 < 0.
Proof. repeat split; vm_compute; reflexivity. Qed.

(** ** The worked example *)

(** C1, as amended. A joined row with balance 1000, security 200,
    credit-insurance total 100 and tax rate 0.10 gets the uninsured
    balance 627. *)
Theorem uninsured_balance_example (m : main_row) (rg : option string) :
  balance (amts m) = 1000 -> security m = 200 -> citotal (amts m) = 100 ->
  calculate_row (JoinedRow m rg tax_rate_010) = Ok (EnrichedRow m rg 627).
Proof.
  intros Hb Hs Hc. unfold calculate_row, uninsured_balance_adj.
  cbn [jr_main jr_region tax_rate]. rewrite Hb, Hs, Hc. reflexivity.
Qed.

Lemma uninsured_balance_example_witness :
  calculate_row (JoinedRow (example_main "567") (Some "EMEA") tax_rate_010)
  = Ok (EnrichedRow (example_main "567") (Some "EMEA") 627).
Proof.
  apply (uninsured_balance_example (example_main "567") (Some "EMEA"));
    reflexivity.
Defined.

(** The same through the whole transform, for an account whose entity
    code holds none of the excluded digits. *)
Lemma example_through_transform :
  joined_table (example_frame "5/567/456" "Acme") (example_regions "567")
  = Ok [EnrichedRow (example_main "567") (Some "EMEA") 627].
Proof. reflexivity. Qed.

(** C1 as stated fails: the account [5/123/456] has the entity code
    [123], which [filter_col_entity_code] removes; no row reaches the
    calculation. *)
Lemma account_5_123_456_is_dropped :
  split_part (Some "5/123/456") 1 = Some "123"
  /\ joined_table (example_frame "5/123/456" "Acme") (example_regions "123") = Ok []
  /\ joined_table two_account_frame two_code_regions
     = Ok [EnrichedRow (example_main "567") (Some "EMEA") 627].
Proof. repeat split; reflexivity. Qed.

(** ** The left join and a missing tax rate *)

Lemma uninsured_balance_adj_nan (m : main_row) (rg : option string) :
  uninsured_balance_adj (JoinedRow m rg S754_nan) = S754_nan.
Proof.
  unfold uninsured_balance_adj. cbn [jr_main tax_rate].
  assert (A : forall x, f64_add x S754_nan = S754_nan) by (intros []; reflexivity).
  assert (D : forall x, f64_div x S754_nan = S754_nan) by (intros []; reflexivity).
  assert (S : forall y, f64_sub S754_nan y = S754_nan) by (intros []; reflexivity).
  rewrite A, D, S. reflexivity.
Qed.

Lemma calculate_row_raises (r : joined_row) (e : exn) :
  calculate_row r = Raise e -> e = Exn ValueError cast_error.
Proof.
  unfold calculate_row, astype_int.
  destruct (trunc_float (uninsured_balance_adj r)); cbn [bind]; congruence.
Qed.

Lemma filter_nil {A : Type} (f : A -> bool) (l : list A) :
  (forall x, In x l -> f x = false) -> filter f l = [].
Proof.
  induction l as [|a l IH]; simpl; intros H; [reflexivity|].
  rewrite (H a) by auto. apply IH. auto.
Qed.

Lemma merge_left_unmatched (df_main : list main_row) (d_region : list region_row)
    (r : main_row) :
  In r df_main ->
  (forall g, In g d_region -> entity_code r <> Some (rg_entity_code g)) ->
  In (JoinedRow r None S754_nan) (merge_left df_main d_region).
Proof.
  intros Hin Hno. unfold merge_left. apply in_flat_map. exists r.
  split; [exact Hin|].
  rewrite filter_nil; [left; reflexivity|].
  intros g Hg. specialize (Hno g Hg). unfold key_matches.
  destruct (entity_code r) as [s|]; [|reflexivity].
  apply String.eqb_neq. congruence.
Qed.

(** C6, as amended. A row of [df_main] whose entity code has no entry in
    the reference table is joined with a missing (NaN) tax rate, and the
    arithmetic of the uninsured balance yields NaN for it; the cast of
    the column to integers then raises, and
    [calculate_uninsured_balance] fails for the whole table. *)
Theorem unmatched_row_fails_the_cast (df_main : list main_row)
    (d_region : list region_row) (r : main_row) :
  In r df_main ->
  (forall g, In g d_region -> entity_code r <> Some (rg_entity_code g)) ->
  exists df_joined,
    join_main_and_dregion df_main d_region = Ok df_joined
    /\ In (JoinedRow r None S754_nan) df_joined
    /\ uninsured_balance_adj (JoinedRow r None S754_nan) = S754_nan
    /\ calculate_uninsured_balance df_joined
       = Raise (Exn PyException
                  ("Error while calculating uninsured balance: " ++ cast_error)).
Proof.
  intros Hin Hno. exists (merge_left df_main d_region).
  pose proof (merge_left_unmatched _ _ _ Hin Hno) as Hj.
  split; [reflexivity|]. split; [exact Hj|].
  split; [apply uninsured_balance_adj_nan|].
  unfold calculate_uninsured_balance.
  rewrite (mapM_raise calculate_row _ (Exn ValueError cast_error) _ Hj).
  - reflexivity.
  - unfold calculate_row, astype_int. rewrite uninsured_balance_adj_nan. reflexivity.
  - exact calculate_row_raises.
Qed.

Lemma unmatched_row_fails_the_cast_witness :
  exists df_joined,
    join_main_and_dregion [example_main "567"] (example_regions "999") = Ok df_joined
    /\ In (JoinedRow (example_main "567") None S754_nan) df_joined
    /\ uninsured_balance_adj (JoinedRow (example_main "567") None S754_nan) = S754_nan
    /\ calculate_uninsured_balance df_joined
       = Raise (Exn PyException
                  ("Error while calculating uninsured balance: " ++ cast_error)).
Proof.
  apply (unmatched_row_fails_the_cast [example_main "567"] (example_regions "999")).
  - left. reflexivity.
  - intros g [<-|[]]. discriminate.
Defined.

(** C6 as stated fails: with an entity code that the reference table does
    not list, the transform raises instead of carrying a missing value. *)
Lemma unmatched_row_raises :
  joined_table (example_frame "5/567/456" "Acme") (example_regions "999")
  = Raise (Exn PyException
             ("Error while calculating uninsured balance: " ++ cast_error)).
Proof. reflexivity. Qed.

(* ================================================================= *)
(** ** The debtor-name filter *)

Lemma filter_app_drop {A : Type} (f : A -> bool) (pre post : list A) (x : A) :
  f x = false -> filter f (pre ++ x :: post) = filter f (pre ++ post).
Proof.
  intros H. rewrite !filter_app. cbn [filter]. rewrite H. reflexivity.
Qed.

(** C9. A row whose debtor name is [AAA Corp] is removed by
    [filter_col_debtor_name], and so is a row whose name is [Zaaaz]: a row
    is removed as soon as its lower-cased name contains one of the
    excluded names anywhere; the other rows are not affected. *)
Theorem debtor_filter_is_substring_match (pre post : list named_row)
    (r : named_row) (name : string) :
  nr_debtor_name r = Some name ->
  name = "AAA Corp" \/ name = "Zaaaz"
  \/ contains_any debtors_to_drop (py_lower name) = true ->
  filter_col_debtor_name (pre ++ r :: post) = filter_col_debtor_name (pre ++ post).
Proof.
  intros Hn Hc.
  assert (C : contains_any debtors_to_drop (py_lower name) = true)
    by (destruct Hc as [->|[->|Hc]]; [reflexivity|reflexivity|exact Hc]).
  unfold filter_col_debtor_name. do 2 f_equal.
  rewrite !map_app. cbn [map]. apply filter_app_drop.
  unfold set_debtor_name. cbn [nr_debtor_name]. rewrite Hn.
  cbn [option_map str_contains_na_false]. rewrite C. reflexivity.
Qed.

Lemma debtor_filter_is_substring_match_witness :
  filter_col_debtor_name ([example_named "Acme"] ++ example_named "Zaaaz" :: [])
  = filter_col_debtor_name ([example_named "Acme"] ++ []).
Proof.
  apply (debtor_filter_is_substring_match _ _ (example_named "Zaaaz") "Zaaaz").
  - reflexivity.
  - right. left. reflexivity.
Defined.

Lemma aaa_corp_is_removed :
  filter_col_debtor_name [example_named "AAA Corp"; example_named "Acme"]
  = Ok [example_named "Acme"].
Proof. reflexivity. Qed.

(* ================================================================= *)
(** ** The parameter sheet *)

(** C10. On a sheet with the two columns and three rows, the paths are
    taken in row order when the three descriptions differ; when two of
    them are equal the dictionary has fewer than three entries and the
    function raises the [exactly three rows] error. *)
Theorem parameter_paths_by_row_order (cols : list string)
    (d1 p1 d2 p2 d3 p3 : string) :
  py_in "Description" cols = true -> py_in "Path" cols = true ->
  etl_parameter_path (ParamSheet cols [(d1, p1); (d2, p2); (d3, p3)])
  = if ((d1 =? d2) || (d1 =? d3) || (d2 =? d3))%string
    then Raise three_rows_error
    else Ok (p1, p2, p3).
Proof.
  intros HD HP. unfold etl_parameter_path. cbn [ps_columns ps_rows].
  rewrite HD, HP. cbn [andb]. unfold to_dict. cbn [fold_left fst snd dict_set].
  destruct (String.eqb_spec d2 d1) as [E21|N21]; [subst d2|];
    cbn [dict_set];
    (destruct (String.eqb_spec d3 d1) as [E31|N31]; [subst d3|]);
    cbn [dict_set];
    try (destruct (String.eqb_spec d3 d2) as [E32|N32]; [subst d3|]);
    cbn [dict_set dict_values map snd];
    rewrite ?String.eqb_refl;
    repeat match goal with
           | H : ?a <> ?b |- context [String.eqb ?a ?b] =>
               rewrite (proj2 (String.eqb_neq a b) H)
           | H : ?a <> ?b |- context [String.eqb ?b ?a] =>
               rewrite (String.eqb_sym b a), (proj2 (String.eqb_neq a b) H)
           end;
    rewrite ?orb_true_r; cbn [orb]; try reflexivity; congruence.
Qed.

Lemma parameter_paths_by_row_order_witness :
  etl_parameter_path
    (ParamSheet ["Description"; "Path"]
       [("raw data", "C:/arm/raw"); ("raw data", "C:/arm/d_region.csv");
        ("export", "C:/arm/out")])
  = Raise three_rows_error.
Proof.
  apply (parameter_paths_by_row_order ["Description"; "Path"]
           "raw data" "C:/arm/raw" "raw data" "C:/arm/d_region.csv"
           "export" "C:/arm/out"); reflexivity.
Defined.

(* ================================================================= *)
(** ** What the pre-transform filters leave *)

Lemma lower_upper_lower (c : ascii) :
  lower_char (upper_char (lower_char c)) = lower_char c.
Proof. ascii_cases c; reflexivity. Qed.

Lemma lower_lower (c : ascii) : lower_char (lower_char c) = lower_char c.
Proof. ascii_cases c; reflexivity. Qed.

Lemma py_lower_idem (s : string) : py_lower (py_lower s) = py_lower s.
Proof.
  induction s as [|c s IH]; simpl; [reflexivity|].
  rewrite lower_lower, IH. reflexivity.
Qed.

Lemma py_lower_capitalize (s : string) :
  py_lower (py_capitalize (py_lower s)) = py_lower s.
Proof.
  destruct s as [|c s]; simpl; [reflexivity|].
  rewrite lower_upper_lower, !py_lower_idem. reflexivity.
Qed.

Lemma filter_col_debtor_name_spec (df out : list named_row) (n : named_row) :
  filter_col_debtor_name df = Ok out -> In n out ->
  exists n0,
    In n0 df
    /\ nr_amounts n = nr_amounts n0
    /\ str_contains_na_false debtors_to_drop
         (option_map py_lower (nr_debtor_name n)) = false.
Proof.
  unfold filter_col_debtor_name. intros H Hin. injection H as <-.
  apply in_map_iff in Hin. destruct Hin as (n1 & <- & Hin).
  apply filter_In in Hin. destruct Hin as [Hin Hf].
  apply in_map_iff in Hin. destruct Hin as (n0 & <- & Hin).
  exists n0. split; [exact Hin|]. split; [reflexivity|].
  apply negb_true_iff in Hf. cbn [set_debtor_name nr_debtor_name] in *.
  destruct (nr_debtor_name n0) as [s|]; cbn [option_map] in *; [|reflexivity].
  rewrite py_lower_capitalize.
  cbn [str_contains_na_false] in *. exact Hf.
Qed.

Lemma pre_transform_data_spec (df : frame) (df_main : list main_row) (m : main_row) :
  pre_transform_data df = Ok df_main -> In m df_main -> passes_filters m.
Proof.
  unfold pre_transform_data. intros H Hin.
  apply bind_ok in H. destruct H as (sel & _ & H).
  apply bind_ok in H. destruct H as (ints & _ & H).
  apply bind_ok in H. destruct H as (deb & Hdeb & H).
  apply bind_ok in H. destruct H as (sp & Hsp & H).
  apply bind_ok in H. destruct H as (ent & Hent & H).
  injection H as <-.
  unfold add_col_security in Hin. apply in_map_iff in Hin.
  destruct Hin as (s & <- & Hin).
  unfold filter_col_entity_code in Hent. apply reraise_ok in Hent.
  destruct (existsb _ sp); [discriminate Hent|]. injection Hent as <-.
  apply filter_In in Hin. destruct Hin as [Hin Hcode].
  apply negb_true_iff in Hcode.
  unfold split_col_long_credit_account in Hsp.
  destruct (Nat.eqb _ 3); [|discriminate Hsp]. injection Hsp as <-.
  apply in_map_iff in Hin. destruct Hin as (n & <- & Hin).
  destruct (filter_col_debtor_name_spec _ _ _ Hdeb Hin) as (n0 & Hn0 & Ham & Hname).
  unfold filter_positive_balance in Hn0. apply filter_In in Hn0.
  destruct Hn0 as [_ Hpos]. apply Z.ltb_lt in Hpos.
  unfold passes_filters. cbn. rewrite Ham. auto.
Qed.

Lemma merge_left_main (df_main : list main_row) (d_region : list region_row)
    (j : joined_row) :
  In j (merge_left df_main d_region) -> In (jr_main j) df_main.
Proof.
  unfold merge_left. intros H. apply in_flat_map in H.
  destruct H as (r & Hr & H).
  destruct (filter (key_matches (entity_code r)) d_region) as [|g gs].
  - destruct H as [<-|[]]. exact Hr.
  - apply in_map_iff in H. destruct H as (g' & <- & _). exact Hr.
Qed.

Lemma joined_table_passes_filters (df : frame) (d_region : list region_row)
    (df_joined : list enriched_row) (r : enriched_row) :
  joined_table df d_region = Ok df_joined -> In r df_joined ->
  passes_filters (er_main r).
Proof.
  intros H Hin. apply joined_table_ok in H.
  destruct H as (df_main & Hpre & H).
  apply calculate_uninsured_balance_ok in H.
  destruct (Forall2_In_r _ _ _ _ H Hin) as (j & Hj & Hc).
  rewrite (calculate_row_main _ _ Hc).
  apply (pre_transform_data_spec df df_main); [exact Hpre|].
  apply (merge_left_main _ d_region). exact Hj.
Qed.

(** C5. When [transform_data] succeeds, both views were computed from the
    joined table, and every row of that table has a positive balance, a
    debtor name that contains none of the excluded names in any letter
    case, and an entity code that contains none of the excluded codes. *)
Theorem views_see_filtered_rows_only (df : frame) (reporting_date : datetime)
    (d_region : list region_row) (top : list top40_row) (agg : list agg_row) :
  transform_data df reporting_date d_region = Ok (top, agg) ->
  exists df_joined,
    joined_table df d_region = Ok df_joined
    /\ get_top40_by_region df_joined reporting_date = Ok top
    /\ get_agg_by_entity_country df_joined reporting_date = Ok agg
    /\ forall r, In r df_joined -> passes_filters (er_main r).
Proof.
  unfold transform_data. intros H.
  apply bind_ok in H. destruct H as (df_joined & Hj & H).
  apply bind_ok in H. destruct H as (t & Ht & H).
  apply bind_ok in H. destruct H as (a & Ha & H).
  injection H as <- <-.
  exists df_joined. repeat split; try assumption.
  all: eapply joined_table_passes_filters; eassumption.
Qed.

Lemma views_see_filtered_rows_only_witness :
  let date := Datetime 2023 1 15 in
  let top := [Top40Row date (example_main "567") 627] in
  let agg := [AggRow date "567" "PL" 1000 627 0 0 0 0 0 0] in
  exists df_joined,
    joined_table (example_frame "5/567/456" "Acme") (example_regions "567")
    = Ok df_joined
    /\ get_top40_by_region df_joined date = Ok top
    /\ get_agg_by_entity_country df_joined date = Ok agg
    /\ forall r, In r df_joined -> passes_filters (er_main r).
Proof.
  intros date top agg.
  apply (views_see_filtered_rows_only
           (example_frame "5/567/456" "Acme") date (example_regions "567") top agg).
  reflexivity.
Defined.

(* ================================================================= *)
(** ** Group-by *)

Lemma flat_map_map {A B C : Type} (f : B -> list C) (g : A -> B) (l : list A) :
  flat_map f (map g l) = flat_map (fun x => f (g x)) l.
Proof.
  induction l as [|a l IH]; simpl; [reflexivity|]. rewrite IH. reflexivity.
Qed.

Lemma sumZ_app {R : Type} (f : R -> Z) (l1 l2 : list R) :
  sumZ f (l1 ++ l2) = sumZ f l1 + sumZ f l2.
Proof.
  induction l1 as [|a l1 IH]; simpl; [reflexivity|]. rewrite IH. lia.
Qed.

Lemma sumZ_map {A B : Type} (f : B -> Z) (g : A -> B) (l : list A) :
  sumZ f (map g l) = sumZ (fun x => f (g x)) l.
Proof.
  induction l as [|a l IH]; simpl; [reflexivity|]. rewrite IH. reflexivity.
Qed.

Section GroupByFacts.
Variables (R K : Type).
Variable cmp : K -> K -> comparison.
Variable key : R -> option K.

Hypothesis cmp_eq : forall a b, cmp a b = Eq -> a = b.
Hypothesis cmp_refl : forall a, cmp a a = Eq.
Hypothesis cmp_antisym : forall a b, cmp a b = CompOpp (cmp b a).
Hypothesis cmp_trans : forall a b c, cmp a b = Lt -> cmp b c = Lt -> cmp a c = Lt.

Let klt (a b : K) : Prop := cmp a b = Lt.

Lemma key_eqb_true (a b : K) : key_eqb cmp a b = true <-> a = b.
Proof.
  unfold key_eqb. split.
  - destruct (cmp a b) eqn:E; try discriminate. intros _. auto.
  - intros ->. rewrite cmp_refl. reflexivity.
Qed.

Lemma in_group_key (k : K) (r : R) :
  in_group cmp key k r = true <-> key r = Some k.
Proof.
  unfold in_group. destruct (key r) as [k'|].
  - rewrite key_eqb_true. split; congruence.
  - split; discriminate.
Qed.

Lemma insert_key_In (x k : K) (l : list K) :
  In x (insert_key cmp k l) <-> x = k \/ In x l.
Proof.
  induction l as [|y l IH]; simpl.
  - intuition.
  - destruct (cmp k y) eqn:E; simpl.
    + apply cmp_eq in E. subst y. intuition.
    + intuition.
    + rewrite IH. intuition.
Qed.

Lemma insert_key_sorted (k : K) (l : list K) :
  StronglySorted klt l -> StronglySorted klt (insert_key cmp k l).
Proof.
  induction 1 as [|y l Hs IH Hy]; simpl.
  - repeat constructor.
  - destruct (cmp k y) eqn:E.
    + constructor; assumption.
    + constructor; [constructor; assumption|].
      constructor; [exact E|].
      eapply Forall_impl; [|exact Hy]. intros z Hz. exact (cmp_trans _ _ _ E Hz).
    + constructor; [exact IH|].
      apply Forall_forall. intros z Hz. apply insert_key_In in Hz.
      destruct Hz as [->|Hz].
      * unfold klt. rewrite cmp_antisym, E. reflexivity.
      * rewrite Forall_forall in Hy. auto.
Qed.

Lemma sorted_NoDup (l : list K) : StronglySorted klt l -> NoDup l.
Proof.
  induction 1 as [|y l Hs IH Hy]; constructor; [|exact IH].
  intros Hin. rewrite Forall_forall in Hy. specialize (Hy y Hin).
  unfold klt in Hy. rewrite cmp_refl in Hy. discriminate.
Qed.

Lemma group_keys_NoDup (df : list R) : NoDup (group_keys cmp key df).
Proof.
  apply sorted_NoDup. unfold group_keys.
  induction (present_keys key df) as [|k ks IH]; simpl.
  - constructor.
  - apply insert_key_sorted. exact IH.
Qed.

Lemma group_keys_In (df : list R) (k : K) :
  In k (group_keys cmp key df) <-> exists r, In r df /\ key r = Some k.
Proof.
  unfold group_keys.
  assert (P : In k (fold_right (insert_key cmp) [] (present_keys key df))
              <-> In k (present_keys key df)).
  { induction (present_keys key df) as [|x ks IH]; simpl; [tauto|].
    rewrite insert_key_In, IH. intuition. }
  rewrite P. unfold present_keys. rewrite in_flat_map. split.
  - intros (r & Hr & Hk). exists r. split; [exact Hr|].
    destruct (key r) as [k'|]; [|contradiction].
    destruct Hk as [->|[]]. reflexivity.
  - intros (r & Hr & Hk). exists r. split; [exact Hr|].
    rewrite Hk. left. reflexivity.
Qed.

(** The rows of key [g] in a concatenation of per-key chunks are the
    chunk of [g]. *)
Lemma filter_group_chunks (g : K) (chunk : K -> list R) (ks : list K) :
  NoDup ks ->
  (forall k r, In r (chunk k) -> key r = Some k) ->
  filter (in_group cmp key g) (flat_map chunk ks)
  = if existsb (key_eqb cmp g) ks then chunk g else [].
Proof.
  intros Hnd Hc. induction Hnd as [|k ks Hk Hnd IH]; simpl; [reflexivity|].
  rewrite filter_app, IH.
  destruct (key_eqb cmp g k) eqn:E; simpl.
  - apply key_eqb_true in E. subst k.
    assert (X : existsb (key_eqb cmp g) ks = false).
    { destruct (existsb (key_eqb cmp g) ks) eqn:X; [|reflexivity].
      apply existsb_exists in X. destruct X as (y & Hy & Ey).
      apply key_eqb_true in Ey. subst y. contradiction. }
    rewrite X, app_nil_r.
    apply forallb_filter_id. apply forallb_forall. intros r Hr.
    apply in_group_key. eauto.
  - rewrite filter_nil; [reflexivity|].
    intros r Hr. destruct (in_group cmp key g r) eqn:G; [|reflexivity].
    apply in_group_key in G. rewrite (Hc k r Hr) in G.
    injection G as ->. rewrite (proj2 (key_eqb_true g g) eq_refl) in E.
    discriminate.
Qed.

Lemma filter_absent_group (g : K) (df : list R) :
  existsb (key_eqb cmp g) (group_keys cmp key df) = false ->
  filter (in_group cmp key g) df = [].
Proof.
  intros X. apply filter_nil. intros r Hr.
  destruct (in_group cmp key g r) eqn:G; [|reflexivity].
  apply in_group_key in G.
  assert (Hin : In g (group_keys cmp key df)) by (apply group_keys_In; eauto).
  assert (Y : existsb (key_eqb cmp g) (group_keys cmp key df) = true).
  { apply existsb_exists. exists g. split; [exact Hin|].
    apply key_eqb_true. reflexivity. }
  congruence.
Qed.

(** Applying to every group an operation that selects rows of its
    argument, and keeping the rows of key [g], is applying it to the
    group of [g]. *)
Lemma filter_group_apply (g : K) (c : list R -> list R) (df : list R) :
  c [] = [] ->
  (forall l x, In x (c l) -> In x l) ->
  filter (in_group cmp key g) (flat_map (fun p => c (snd p)) (groupby cmp key df))
  = c (filter (in_group cmp key g) df).
Proof.
  intros Hnil Hsub. unfold groupby. rewrite flat_map_map. cbn [snd].
  rewrite (filter_group_chunks g
             (fun k => c (filter (in_group cmp key k) df))).
  - destruct (existsb _ _) eqn:X; [reflexivity|].
    rewrite (filter_absent_group g df X). symmetry. exact Hnil.
  - apply group_keys_NoDup.
  - intros k r Hr. apply Hsub in Hr. apply filter_In in Hr.
    apply in_group_key. tauto.
Qed.

(** Summing a column group by group is summing it over the rows that
    have a key. *)
Lemma sum_by_chunks (f : R -> Z) (ks : list K) (df : list R) :
  NoDup ks ->
  (forall r k, In r df -> key r = Some k -> In k ks) ->
  sumZ (fun k => sumZ f (filter (in_group cmp key k) df)) ks
  = sumZ f (filter (fun r => negb (is_none (key r))) df).
Proof.
  intros Hnd. induction df as [|r df IH]; intros Hks.
  - simpl. induction ks as [|k ks IHk]; simpl; [reflexivity|].
    inversion Hnd; subst. rewrite IHk by (auto || (intros ? ? [])). reflexivity.
  - assert (Step : forall l,
              sumZ (fun k => sumZ f (filter (in_group cmp key k) (r :: df))) l
              = sumZ (fun k => if in_group cmp key k r then f r else 0) l
                + sumZ (fun k => sumZ f (filter (in_group cmp key k) df)) l).
    { induction l as [|k l IHl]; simpl; [reflexivity|].
      simpl in IHl. rewrite IHl.
      destruct (in_group cmp key k r); simpl; lia. }
    rewrite Step, IH by (intros; eapply Hks; [right|]; eassumption).
    cbn [filter]. destruct (key r) as [k0|] eqn:Kr; cbn [is_none negb].
    + cbn [sumZ fold_right]. f_equal.
      assert (Hin : In k0 ks) by (apply (Hks r); [left; reflexivity|exact Kr]).
      clear IH Step Hks.
      induction Hnd as [|k ks Hk Hnd IHn]; [contradiction|].
      cbn [sumZ fold_right]. unfold in_group at 1. rewrite Kr.
      destruct (key_eqb cmp k0 k) eqn:E.
      * apply key_eqb_true in E. subst k.
        assert (Z0 : sumZ (fun k => if in_group cmp key k r then f r else 0) ks = 0).
        { clear IHn Hin Hnd. induction ks as [|y ks IHy]; [reflexivity|].
          cbn [sumZ fold_right]. unfold in_group at 1. rewrite Kr.
          destruct (key_eqb cmp k0 y) eqn:Ey.
          - apply key_eqb_true in Ey. subst y. exfalso. apply Hk. left. reflexivity.
          - fold (sumZ (fun k => if in_group cmp key k r then f r else 0) ks).
            rewrite IHy; [lia|]. intros H. apply Hk. right. exact H. }
        fold (sumZ (fun k => if in_group cmp key k r then f r else 0) ks).
        rewrite Z0. lia.
      * fold (sumZ (fun k => if in_group cmp key k r then f r else 0) ks).
        rewrite IHn; [lia|]. destruct Hin as [->|Hin]; [|exact Hin].
        rewrite (proj2 (key_eqb_true k0 k0) eq_refl) in E. discriminate.
    + assert (Z0 : forall l,
                sumZ (fun k => if in_group cmp key k r then f r else 0) l = 0).
      { induction l as [|y l IHy]; [reflexivity|].
        cbn [sumZ fold_right]. unfold in_group at 1. rewrite Kr.
        fold (sumZ (fun k => if in_group cmp key k r then f r else 0) l).
        rewrite IHy. reflexivity. }
      rewrite Z0. lia.
Qed.

Lemma sum_by_groups (f : R -> Z) (df : list R) :
  sumZ (fun g => sumZ f (snd g)) (groupby cmp key df)
  = sumZ f (filter (fun r => negb (is_none (key r))) df).
Proof.
  unfold groupby. rewrite sumZ_map. cbn [snd].
  apply sum_by_chunks.
  - apply group_keys_NoDup.
  - intros r k Hr Hk. apply group_keys_In. eauto.
Qed.
End GroupByFacts.

(** *** The orders on the keys *)

Lemma ascii_compare_refl (c : ascii) : Ascii.compare c c = Eq.
Proof. unfold Ascii.compare. apply N.compare_refl. Qed.

Lemma ascii_compare_trans (a b c : ascii) :
  Ascii.compare a b = Lt -> Ascii.compare b c = Lt -> Ascii.compare a c = Lt.
Proof.
  unfold Ascii.compare. rewrite !N.compare_lt_iff. apply N.lt_trans.
Qed.

Lemma string_compare_refl (s : string) : String.compare s s = Eq.
Proof.
  induction s as [|c s IH]; simpl; [reflexivity|].
  rewrite ascii_compare_refl. exact IH.
Qed.

Lemma string_compare_trans (a b c : string) :
  String.compare a b = Lt -> String.compare b c = Lt -> String.compare a c = Lt.
Proof.
  revert b c. induction a as [|x a IH]; intros [|y b] [|z c]; simpl;
    try discriminate; try reflexivity.
  destruct (Ascii.compare x y) eqn:Exy; try discriminate;
    destruct (Ascii.compare y z) eqn:Eyz; try discriminate; intros H1 H2.
  - apply Ascii.compare_eq_iff in Exy, Eyz. subst.
    rewrite ascii_compare_refl. eauto.
  - apply Ascii.compare_eq_iff in Exy. subst. rewrite Eyz. reflexivity.
  - apply Ascii.compare_eq_iff in Eyz. subst. rewrite Exy. reflexivity.
  - rewrite (ascii_compare_trans _ _ _ Exy Eyz). reflexivity.
Qed.

Lemma pair_compare_eq (a b : string * string) : pair_compare a b = Eq -> a = b.
Proof.
  destruct a as [a1 a2], b as [b1 b2]. unfold pair_compare. cbn [fst snd].
  destruct (String.compare a1 b1) eqn:E; try discriminate.
  intros H. apply String.compare_eq_iff in E, H. congruence.
Qed.

Lemma pair_compare_refl (a : string * string) : pair_compare a a = Eq.
Proof. unfold pair_compare. rewrite !string_compare_refl. reflexivity. Qed.

Lemma pair_compare_antisym (a b : string * string) :
  pair_compare a b = CompOpp (pair_compare b a).
Proof.
  unfold pair_compare.
  rewrite (String.compare_antisym (fst a) (fst b)).
  rewrite (String.compare_antisym (snd a) (snd b)).
  destruct (String.compare (fst b) (fst a)); reflexivity.
Qed.

Lemma pair_compare_trans (a b c : string * string) :
  pair_compare a b = Lt -> pair_compare b c = Lt -> pair_compare a c = Lt.
Proof.
  destruct a as [a1 a2], b as [b1 b2], c as [c1 c2].
  unfold pair_compare. cbn [fst snd].
  destruct (String.compare a1 b1) eqn:E1; try discriminate;
    destruct (String.compare b1 c1) eqn:E2; try discriminate; intros H1 H2.
  - apply String.compare_eq_iff in E1, E2. subst.
    rewrite string_compare_refl. eapply string_compare_trans; eassumption.
  - apply String.compare_eq_iff in E1. subst. rewrite E2. reflexivity.
  - apply String.compare_eq_iff in E2. subst. rewrite E1. reflexivity.
  - rewrite (string_compare_trans _ _ _ E1 E2). reflexivity.
Qed.

(* ================================================================= *)
(** ** The top-40 view *)

Lemma insert_desc_perm (x : enriched_row) (l : list enriched_row) :
  Permutation (insert_desc x l) (x :: l).
Proof.
  induction l as [|y l IH]; simpl; [apply Permutation_refl|].
  destruct (er_balance y <=? er_balance x); [apply Permutation_refl|].
  apply perm_trans with (y :: x :: l); [|apply perm_swap].
  apply perm_skip. exact IH.
Qed.

Lemma insert_desc_sorted (x : enriched_row) (l : list enriched_row) :
  StronglySorted ge_balance l -> StronglySorted ge_balance (insert_desc x l).
Proof.
  induction 1 as [|y l Hs IH Hy]; simpl.
  - repeat constructor.
  - destruct (er_balance y <=? er_balance x) eqn:E.
    + apply Z.leb_le in E. constructor; [constructor; assumption|].
      constructor; [exact E|].
      eapply Forall_impl; [|exact Hy]. unfold ge_balance. intros; lia.
    + apply Z.leb_gt in E. constructor; [exact IH|].
      apply Forall_forall. intros z Hz.
      apply (Permutation_in _ (insert_desc_perm x l)) in Hz.
      destruct Hz as [<-|Hz].
      * unfold ge_balance. lia.
      * rewrite Forall_forall in Hy. auto.
Qed.

Lemma sort_desc_perm (l : list enriched_row) : Permutation (sort_desc l) l.
Proof.
  induction l as [|x l IH]; simpl; [constructor|].
  eapply perm_trans; [apply insert_desc_perm|]. apply perm_skip. exact IH.
Qed.

Lemma sort_desc_sorted (l : list enriched_row) :
  StronglySorted ge_balance (sort_desc l).
Proof.
  induction l as [|x l IH]; simpl; [constructor|].
  apply insert_desc_sorted. exact IH.
Qed.

Lemma sorted_app_inv {A : Type} (P : A -> A -> Prop) (l1 l2 : list A) :
  StronglySorted P (l1 ++ l2) ->
  StronglySorted P l1 /\ forall a b, In a l1 -> In b l2 -> P a b.
Proof.
  induction l1 as [|x l1 IH]; simpl; intros H.
  - split; [constructor|]. intros a b [].
  - inversion H as [|? ? Hs Hx]; subst. destruct (IH Hs) as [S1 C1].
    rewrite Forall_forall in Hx. split.
    + constructor; [exact S1|]. apply Forall_forall. intros z Hz.
      apply Hx. apply in_or_app. left. exact Hz.
    + intros a b [<-|Ha] Hb.
      * apply Hx. apply in_or_app. right. exact Hb.
      * apply C1; assumption.
Qed.

Lemma nlargest_In (n : nat) (l : list enriched_row) (x : enriched_row) :
  In x (nlargest n l) -> In x l.
Proof.
  unfold nlargest. intros H.
  apply (Permutation_in _ (sort_desc_perm l)).
  rewrite <- (firstn_skipn n (sort_desc l)). apply in_or_app. left. exact H.
Qed.

Lemma in_region_in_group (g : string) (r : enriched_row) :
  in_group String.compare region g r = in_region g r.
Proof.
  unfold in_group, in_region, key_eqb. destruct (region r) as [g'|]; [|reflexivity].
  destruct (String.eqb_spec g' g) as [->|N].
  - rewrite string_compare_refl. reflexivity.
  - destruct (String.compare g' g) eqn:E; try reflexivity.
    apply String.compare_eq_iff in E. contradiction.
Qed.

(** The rows of one region in the grouped result are the forty largest of
    that region. *)
Lemma top40_of_region (df : list enriched_row) (g : string) :
  filter (in_region g) (top40_grouped df) = nlargest 40 (filter (in_region g) df).
Proof.
  rewrite <- (filter_ext _ _ (in_region_in_group g) (top40_grouped df)).
  rewrite <- (filter_ext _ _ (in_region_in_group g) df).
  unfold top40_grouped.
  apply (filter_group_apply _ _ String.compare region
           String.compare_eq_iff string_compare_refl String.compare_antisym
           string_compare_trans g (nlargest 40) df).
  - reflexivity.
  - intros l x. apply nlargest_In.
Qed.

(** C3. For every table and every region, the rows of that region in the
    top-40 view are at most forty, they are in decreasing order of
    balance, and together with the rows left out they make up the rows
    of the region, no row left out having a larger balance than a row
    kept. The report rows are these rows, the region column dropped and
    the date added. *)
Theorem top40_by_region_spec (df : list enriched_row) (reporting_date : datetime)
    (g : string) :
  get_top40_by_region df reporting_date
  = Ok (map (fun r => Top40Row reporting_date (er_main r) (uninsured_balance r))
            (top40_grouped df))
  /\ (List.length (filter (in_region g) (top40_grouped df)) <= 40)%nat
  /\ StronglySorted ge_balance (filter (in_region g) (top40_grouped df))
  /\ exists excluded,
       Permutation (filter (in_region g) (top40_grouped df) ++ excluded)
                   (filter (in_region g) df)
       /\ forall s r,
            In s (filter (in_region g) (top40_grouped df)) -> In r excluded ->
            er_balance r <= er_balance s.
Proof.
  split; [reflexivity|]. rewrite top40_of_region. unfold nlargest.
  set (sorted := sort_desc (filter (in_region g) df)).
  pose proof (sort_desc_sorted (filter (in_region g) df)) as Hs.
  fold sorted in Hs. rewrite <- (firstn_skipn 40 sorted) in Hs.
  apply sorted_app_inv in Hs. destruct Hs as [Hs Hc].
  split; [apply firstn_le_length|]. split; [exact Hs|].
  exists (skipn 40 sorted). split.
  - rewrite firstn_skipn. apply sort_desc_perm.
  - intros s r Hin Hex. exact (Hc s r Hin Hex).
Qed.

(* ================================================================= *)
(** ** The aggregate view *)


(** A row without a country code is in no group. *)
Lemma missing_country_takes_no_part :
  get_agg_by_entity_country
    [EnrichedRow (MainRow (Some "567") (Some "456") (Some "Acme") None
                          (Amounts 1000 0 0 0 0 0 100 0) 200)
                 (Some "EMEA") 627]
    (Datetime 2023 1 15)
  = Ok [].
Proof. reflexivity. Qed.

(** When every row has both keys the whole balance of the table is
    conserved. *)
Lemma aggregate_conserves_total (df : list enriched_row) (reporting_date : datetime) :
  forallb has_agg_key df = true ->
  exists out,
    get_agg_by_entity_country df reporting_date = Ok out
    /\ sumZ agg_balance out = sumZ er_balance df.
Proof.
  intros H. eexists. split; [reflexivity|].
  rewrite sumZ_map.
  rewrite <- (forallb_filter_id has_agg_key df H) at 2.
  exact (sum_by_groups _ _ pair_compare agg_key
           pair_compare_eq pair_compare_refl pair_compare_antisym
           pair_compare_trans er_balance df).
Qed.

(* ================================================================= *)
(** * Further properties *)

(** ** Headers and the selection of columns *)

Lemma chars_py_lower (s : string) : chars (py_lower s) = map lower_char (chars s).
Proof.
  unfold chars. induction s as [|c s IH]; [reflexivity|].
  cbn [py_lower list_ascii_of_string map]. rewrite IH. reflexivity.
Qed.

Lemma chars_py_remove (c : ascii) (s : string) (x : ascii) :
  In x (chars (py_remove c s)) <-> In x (chars s) /\ x <> c.
Proof.
  unfold chars. induction s as [|a s IH]; [simpl; tauto|].
  cbn [py_remove list_ascii_of_string].
  destruct (Ascii.eqb_spec a c) as [->|N].
  - rewrite IH. cbn [In]. intuition congruence.
  - cbn [list_ascii_of_string In]. rewrite IH. intuition congruence.
Qed.

Lemma lower_char_punctuation (x : ascii) :
  lower_char x = ":"%char \/ lower_char x = "."%char \/ lower_char x = " "%char ->
  lower_char x = x.
Proof.
  ascii_cases x; vm_compute; intros [H|[H|H]]; try discriminate H; reflexivity.
Qed.

(** X1. No adjusted header contains a colon, a full stop or a blank, and
    lower-casing leaves every character of it as it is. *)
Theorem adjusted_header_is_clean (h : string) (c : ascii) :
  In c (chars (adjust_header h)) ->
  c <> ":"%char /\ c <> "."%char /\ c <> " "%char /\ lower_char c = c.
Proof.
  unfold adjust_header. rewrite chars_py_lower. intros H.
  apply in_map_iff in H. destruct H as (x & <- & Hx).
  apply chars_py_remove in Hx. destruct Hx as [Hx N1].
  apply chars_py_remove in Hx. destruct Hx as [Hx N2].
  apply chars_py_remove in Hx. destruct Hx as [_ N3].
  assert (P : forall p, (p = ":" \/ p = "." \/ p = " ")%char -> lower_char x <> p).
  { intros p Hp E. assert (L : lower_char x = x).
    { apply lower_char_punctuation. destruct Hp as [->|[->| ->]]; auto. }
    rewrite L in E. destruct Hp as [->|[->| ->]]; contradiction. }
  repeat split; try (apply P; auto). apply lower_lower.
Qed.

Lemma adjusted_header_is_clean_witness :
  In "c"%char (chars (adjust_header " Sec. bank:"))
  /\ ("c" <> ":" /\ "c" <> "." /\ "c" <> " " /\ lower_char "c" = "c")%char.
Proof.
  assert (H : In "c"%char (chars (adjust_header " Sec. bank:"))).
  { vm_compute. auto. }
  split; [exact H|]. exact (adjusted_header_is_clean _ _ H).
Defined.

Lemma py_in_In (s : string) (l : list string) : py_in s l = true <-> In s l.
Proof.
  unfold py_in. rewrite existsb_exists. split.
  - intros (x & Hx & E). apply String.eqb_eq in E. subst. exact Hx.
  - intros H. exists s. split; [exact H|]. apply String.eqb_refl.
Qed.

(** X2. [adjust_select_columns] returns the rows when each of the
    thirteen required headers is among the adjusted headers, whatever
    other headers there are; otherwise it raises a [KeyError] whose
    message lists the required headers that are missing, and only
    those. *)
Theorem adjust_select_columns_spec (df : frame) :
  match adjust_select_columns df with
  | Ok out =>
      out = rows df
      /\ forall c, In c select_cols -> In c (adjusted_columns df)
  | Raise e =>
      exists missing,
        missing <> []
        /\ (forall c, In c missing
                      <-> In c select_cols /\ ~ In c (adjusted_columns df))
        /\ e = Exn KeyError
                 ("The following columns are missing in the DataFrame: "
                  ++ String.concat ", " missing)
  end.
Proof.
  unfold adjust_select_columns, adjust_col_headers. cbn [columns rows].
  fold (adjusted_columns df).
  set (missing := filter (fun c => negb (py_in c (adjusted_columns df))) select_cols).
  assert (M : forall c, In c missing
                        <-> In c select_cols /\ ~ In c (adjusted_columns df)).
  { intros c. unfold missing. rewrite filter_In, negb_true_iff.
    rewrite <- (py_in_In c (adjusted_columns df)).
    destruct (py_in c (adjusted_columns df)); intuition congruence. }
  destruct missing as [|m ms] eqn:E.
  - split; [reflexivity|]. intros c Hc.
    destruct (py_in c (adjusted_columns df)) eqn:P; [apply py_in_In; exact P|].
    exfalso. apply (proj2 (M c)). split; [exact Hc|].
    rewrite <- (py_in_In c (adjusted_columns df)). congruence.
  - exists (m :: ms). split; [discriminate|]. split; [exact M|reflexivity].
Qed.

(** ** The file name, the date and the read *)


(** X3. When [get_date_from_filename] returns a date string, the file
    name is [ARM_], that string of ten characters and [.xlsx], followed
    by nothing or by one newline. *)
Theorem get_date_from_filename_inv (file_name date_str : string) :
  get_date_from_filename file_name = Ok date_str ->
  String.length date_str = 10%nat
  /\ (file_name = "ARM_" ++ date_str ++ ".xlsx"
      \/ file_name = "ARM_" ++ date_str ++ ".xlsx" ++ String newline EmptyString).
Proof.
  intros H.
  assert (M : re_match_filename file_name = true).
  { unfold get_date_from_filename in H.
    destruct (re_match_filename file_name); [reflexivity|discriminate H]. }
  apply re_match_filename_inv in M.
  destruct M as (y1 & y2 & y3 & y4 & m1 & m2 & d1 & d2 & tl & -> & Hd & Htl).
  rewrite (get_date_from_arm_name _ _ _ _ _ _ _ _ tl Hd Htl) in H.
  injection H as <-. split; [reflexivity|].
  destruct Htl as [-> | ->]; [left|right]; reflexivity.
Qed.

Lemma get_date_from_filename_inv_witness :
  String.length "2023-01-15" = 10%nat
  /\ ("ARM_2023-01-15.xlsx" = "ARM_" ++ "2023-01-15" ++ ".xlsx"
      \/ "ARM_2023-01-15.xlsx"
         = "ARM_" ++ "2023-01-15" ++ ".xlsx" ++ String newline EmptyString).
Proof.
  apply (get_date_from_filename_inv "ARM_2023-01-15.xlsx" "2023-01-15").
  reflexivity.
Defined.



(** X6. When the date of the stripped file name cannot be had, for its
    form or for its digits, [extract_data] raises that very exception and
    reads nothing. *)
Theorem extract_reads_nothing_without_date
    (pd_read_excel : string -> list nat -> nat -> result frame)
    (folder_path file_name : string) (log : list io_event) (e : exn) :
  date_str_datetime (py_strip file_name) = Raise e ->
  extract_data pd_read_excel folder_path file_name log = (Raise e, log).
Proof.
  intros H. unfold extract_data, trim_string. rewrite H. reflexivity.
Qed.

Lemma extract_reads_nothing_without_date_witness :
  extract_data empty_read "data" "ARM_2023-02-30.xlsx" []
  = (Raise (conversion_error "2023-02-30"), []).
Proof.
  apply (extract_reads_nothing_without_date empty_read "data"
           "ARM_2023-02-30.xlsx" [] (conversion_error "2023-02-30")).
  reflexivity.
Defined.

(** X7. When the stripped file name gives a date, [extract_data] reads
    once, the file of the stripped name in the stripped folder, skipping
    rows 0 to 15 and 17 and a footer of 15 rows; it returns what was read
    with the date, or re-raises the failure of the read as an
    [Exception] that names the file and carries [str(e)] of the
    failure. *)
Theorem extract_reads_once
    (pd_read_excel : string -> list nat -> nat -> result frame)
    (folder_path file_name date_str : string) (d : datetime)
    (log : list io_event) :
  date_str_datetime (py_strip file_name) = Ok (date_str, d) ->
  let file_path := py_strip folder_path ++ "/" ++ py_strip file_name in
  let skipped := [0; 1; 2; 3; 4; 5; 6; 7; 8; 9; 10; 11; 12; 13; 14; 15; 17]%nat in
  extract_data pd_read_excel folder_path file_name log
  = (match pd_read_excel file_path skipped 15%nat with
     | Ok df => Ok (df, date_str, d)
     | Raise e =>
         Raise (Exn PyException
                  ("Error while importing xlsx file " ++ py_strip file_name ++ ": "
                   ++ String newline ("Message:" ++ exn_str e)))
     end,
     (log ++ [ReadExcel file_path skipped 15%nat])%list).
Proof.
  intros H file_path skipped.
  unfold extract_data, trim_string, get_data_from_xlsx, get_file_path. rewrite H.
  change top_rows_to_skip with skipped. fold file_path.
  destruct (pd_read_excel file_path skipped 15%nat); reflexivity.
Qed.

Lemma extract_reads_once_witness :
  extract_data empty_read " data" "ARM_2023-01-15.xlsx " []
  = (Ok (Frame [] [], "2023-01-15", Datetime 2023 1 15),
     [ReadExcel "data/ARM_2023-01-15.xlsx"
        [0; 1; 2; 3; 4; 5; 6; 7; 8; 9; 10; 11; 12; 13; 14; 15; 17]%nat 15%nat]).
Proof.
  apply (extract_reads_once empty_read " data" "ARM_2023-01-15.xlsx "
           "2023-01-15" (Datetime 2023 1 15) []).
  reflexivity.
Defined.

(** X5. Every calendar date of the years 1 to 9999, written as
    [ARM_YYYY-MM-DD.xlsx], is accepted and converted to that date. *)
Theorem every_calendar_date_converts (y m d : Z) :
  valid_date y m d = true ->
  let file_name := "ARM_" ++ isoformat (Datetime y m d) ++ ".xlsx" in
  get_date_from_filename file_name = Ok (isoformat (Datetime y m d))
  /\ date_str_datetime file_name = Ok (isoformat (Datetime y m d), Datetime y m d).
Proof.
  intros V file_name. pose proof (valid_date_converts y m d V) as H.
  fold file_name in H. split; [|exact H].
  unfold date_str_datetime in H.
  destruct (get_date_from_filename file_name) as [s|e]; [|discriminate H].
  cbn [bind] in H. destruct (strptime_ymd s); [|discriminate H].
  injection H as -> _. reflexivity.
Qed.

Lemma every_calendar_date_converts_witness :
  get_date_from_filename "ARM_2024-02-29.xlsx" = Ok "2024-02-29"
  /\ date_str_datetime "ARM_2024-02-29.xlsx"
     = Ok ("2024-02-29", Datetime 2024 2 29).
Proof. apply (every_calendar_date_converts 2024 2 29). reflexivity. Defined.

(** ** The split of the account and the entity code *)

Lemma py_split_free (c : ascii) (s : string) :
  free_of c s = true -> py_split c s = [s].
Proof.
  unfold free_of, chars. induction s as [|a s IH]; [reflexivity|].
  cbn [list_ascii_of_string forallb py_split]. intros H.
  apply andb_true_iff in H. destruct H as [Ha Hs].
  apply negb_true_iff in Ha. rewrite Ha, (IH Hs). reflexivity.
Qed.

Lemma py_split_app (c : ascii) (a b : string) :
  free_of c a = true -> py_split c (a ++ String c b) = a :: py_split c b.
Proof.
  unfold free_of, chars. induction a as [|x a IH].
  - intros _. cbn [append py_split]. rewrite Ascii.eqb_refl. reflexivity.
  - cbn [list_ascii_of_string forallb append py_split]. intros H.
    apply andb_true_iff in H. destruct H as [Hx Ha].
    apply negb_true_iff in Hx. rewrite Hx, (IH Ha). reflexivity.
Qed.

Lemma py_split_account (p e c : string) :
  free_of "/" p = true -> free_of "/" e = true -> free_of "/" c = true ->
  py_split "/" (account_of p e c) = [p; e; c].
Proof.
  intros Hp He Hc. unfold account_of.
  change ("/" ++ e ++ "/" ++ c) with (String "/" (e ++ String "/" c)).
  rewrite (py_split_app _ _ _ Hp), (py_split_app _ _ _ He), (py_split_free _ _ Hc).
  reflexivity.
Qed.

Lemma max_width_all (n : nat) (l : list nat) :
  l <> [] -> Forall (fun w => w = n) l -> fold_right Nat.max 0%nat l = n.
Proof.
  intros Hne H. induction H as [|w l Hw Hl IH]; [contradiction|].
  subst w. cbn [fold_right]. destruct l as [|w' l'].
  - cbn. lia.
  - rewrite IH by discriminate. lia.
Qed.

Lemma max_width_member (l : list nat) :
  fold_right Nat.max 0%nat l = 0%nat \/ In (fold_right Nat.max 0%nat l) l.
Proof.
  induction l as [|w l IH]; [left; reflexivity|].
  cbn [fold_right In].
  destruct (Nat.max_spec w (fold_right Nat.max 0%nat l)) as [[_ E]|[_ E]];
    rewrite E.
  - destruct IH as [Z|I]; [|right; right; exact I].
    rewrite Z in *. right. left. lia.
  - right. left. reflexivity.
Qed.

Lemma max_width_ge (l : list nat) (w : nat) :
  In w l -> (w <= fold_right Nat.max 0%nat l)%nat.
Proof.
  induction l as [|x l IH]; [contradiction|].
  cbn [fold_right In]. intros [->|H]; [lia|]. specialize (IH H). lia.
Qed.

(** X8. On a table with at least one row, each account of which is made
    of three segments separated by [/], the split succeeds; it leaves
    the rows in place, and a row gets the second segment as entity code
    and the third as credit account. *)
Theorem split_of_three_segments (df : list named_row) :
  df <> [] ->
  (forall r, In r df ->
     exists p e c,
       long_credit_account r = Some (account_of p e c)
       /\ free_of "/" p = true /\ free_of "/" e = true /\ free_of "/" c = true) ->
  exists out,
    split_col_long_credit_account df = Ok out
    /\ Forall2
         (fun r s =>
            sr_debtor_name s = nr_debtor_name r
            /\ sr_amounts s = nr_amounts r
            /\ forall p e c,
                 long_credit_account r = Some (account_of p e c) ->
                 free_of "/" p = true -> free_of "/" e = true ->
                 free_of "/" c = true ->
                 sr_entity_code s = Some e /\ sr_credit_account s = Some c)
         df out.
Proof.
  intros Hne Hall. exists (map split_one df). split.
  - unfold split_col_long_credit_account, frame_width.
    rewrite (max_width_all 3).
    + reflexivity.
    + destruct df; [contradiction|discriminate].
    + rewrite map_map. apply Forall_forall. intros w Hw.
      apply in_map_iff in Hw. destruct Hw as (r & <- & Hr).
      destruct (Hall r Hr) as (p & e & c & -> & Hp & He & Hc).
      unfold split_width. rewrite py_split_account by assumption. reflexivity.
  - clear. induction df as [|r df IH]; constructor; [|exact IH].
    split; [reflexivity|]. split; [reflexivity|].
    intros p e c Hr Hp He Hc. unfold split_one. cbn [sr_entity_code sr_credit_account].
    rewrite Hr. unfold split_part. rewrite py_split_account by assumption.
    split; reflexivity.
Qed.

Lemma split_of_three_segments_witness :
  exists out,
    split_col_long_credit_account [example_named "Acme"] = Ok out
    /\ Forall2
         (fun r s =>
            sr_debtor_name s = nr_debtor_name r
            /\ sr_amounts s = nr_amounts r
            /\ forall p e c,
                 long_credit_account r = Some (account_of p e c) ->
                 free_of "/" p = true -> free_of "/" e = true ->
                 free_of "/" c = true ->
                 sr_entity_code s = Some e /\ sr_credit_account s = Some c)
         [example_named "Acme"] out.
Proof.
  apply (split_of_three_segments [example_named "Acme"]).
  - discriminate.
  - intros r [<-|[]]. exists "5", "567", "456". repeat split; reflexivity.
Defined.

(** X9. The split raises a [ValueError] when no account of the table has
    exactly three segments, so on the empty table too, and when some
    account has more than three. *)
Theorem split_rejects_other_widths (df : list named_row) :
  (forall r, In r df -> split_width (long_credit_account r) <> 3%nat)
  \/ (exists r, In r df /\ (3 < split_width (long_credit_account r))%nat) ->
  split_col_long_credit_account df
  = Raise (Exn ValueError "Columns must be same length as key").
Proof.
  intros H. unfold split_col_long_credit_account, frame_width.
  set (ws := map split_width (map long_credit_account df)).
  assert (N : fold_right Nat.max 0%nat ws <> 3%nat).
  { destruct H as [H|(r & Hr & Hw)].
    - destruct (max_width_member ws) as [Z|I]; [rewrite Z; discriminate|].
      remember (fold_right Nat.max 0%nat ws) as w eqn:Ew. clear Ew.
      unfold ws in I. rewrite map_map in I. apply in_map_iff in I.
      destruct I as (r & <- & Hr). apply H. exact Hr.
    - assert (G : (split_width (long_credit_account r)
                   <= fold_right Nat.max 0%nat ws)%nat).
      { apply max_width_ge. unfold ws. rewrite map_map.
        apply in_map_iff. exists r. auto. }
      lia. }
  apply Nat.eqb_neq in N. rewrite N. reflexivity.
Qed.

Lemma split_rejects_other_widths_witness :
  split_col_long_credit_account []
  = Raise (Exn ValueError "Columns must be same length as key").
Proof.
  apply (split_rejects_other_widths []). left. intros r [].
Defined.

(** X10. When the split succeeds on a table in which some account is
    missing or has no [/], that row has no entity code, and
    [filter_col_entity_code] raises an [Exception] instead of dropping
    or keeping it. *)
Theorem missing_entity_code_raises (df : list named_row) (sp : list split_row)
    (r : named_row) :
  split_col_long_credit_account df = Ok sp ->
  In r df ->
  (long_credit_account r = None
   \/ exists s, long_credit_account r = Some s /\ free_of "/" s = true) ->
  filter_col_entity_code sp
  = Raise (Exn PyException
             "Error while dropping entities: bad operand type for unary ~: 'float'").
Proof.
  intros Hsp Hin Hacc. unfold split_col_long_credit_account in Hsp.
  destruct (Nat.eqb _ 3); [|discriminate Hsp]. injection Hsp as <-.
  unfold filter_col_entity_code.
  assert (X : existsb (fun r => is_none (sr_entity_code r)) (map split_one df) = true).
  { apply existsb_exists. exists (split_one r). split; [apply in_map; exact Hin|].
    unfold split_one. cbn [sr_entity_code].
    destruct Hacc as [-> | (s & -> & Hs)]; [reflexivity|].
    unfold split_part. rewrite (py_split_free _ _ Hs). reflexivity. }
  rewrite X. reflexivity.
Qed.

Lemma missing_entity_code_raises_witness :
  let df := [example_named "Acme";
             NamedRow (Some "567") (Some "Borg") (Some "PL")
                      (Amounts 10 0 0 0 0 0 0 0) 0 0] in
  filter_col_entity_code (map split_one df)
  = Raise (Exn PyException
             "Error while dropping entities: bad operand type for unary ~: 'float'").
Proof.
  intros df.
  apply (missing_entity_code_raises df (map split_one df)
           (NamedRow (Some "567") (Some "Borg") (Some "PL")
                     (Amounts 10 0 0 0 0 0 0 0) 0 0)).
  - reflexivity.
  - right. left. reflexivity.
  - right. exists "567". split; reflexivity.
Defined.

(** ** What the pre-transform keeps *)

(** X11. A row whose debtor name is missing, or holds none of the
    excluded names in any letter case, is kept by
    [filter_col_debtor_name], its name lower-cased and then capitalised,
    the rest of it untouched. *)
Theorem debtor_filter_keeps (df : list named_row) (r : named_row) :
  In r df ->
  str_contains_na_false debtors_to_drop (option_map py_lower (nr_debtor_name r))
  = false ->
  exists out,
    filter_col_debtor_name df = Ok out
    /\ In (set_debtor_name py_capitalize (set_debtor_name py_lower r)) out.
Proof.
  intros Hin Hc. unfold filter_col_debtor_name. eexists. split; [reflexivity|].
  apply in_map. apply filter_In. split.
  - apply in_map. exact Hin.
  - cbn [set_debtor_name nr_debtor_name]. rewrite Hc. reflexivity.
Qed.

Lemma debtor_filter_keeps_witness :
  exists out,
    filter_col_debtor_name
      [NamedRow (Some "5/567/456") None (Some "PL") (Amounts 1 0 0 0 0 0 0 0) 0 0]
    = Ok out
    /\ In (set_debtor_name py_capitalize
             (set_debtor_name py_lower
                (NamedRow (Some "5/567/456") None (Some "PL")
                          (Amounts 1 0 0 0 0 0 0 0) 0 0))) out.
Proof.
  apply (debtor_filter_keeps _
           (NamedRow (Some "5/567/456") None (Some "PL")
                     (Amounts 1 0 0 0 0 0 0 0) 0 0)).
  - left. reflexivity.
  - reflexivity.
Defined.

Lemma Forall2_In_l {A B : Type} (P : A -> B -> Prop) (l : list A) (l' : list B) (x : A) :
  Forall2 P l l' -> In x l -> exists y, In y l' /\ P x y.
Proof.
  induction 1 as [|a b l l' Hab _ IH]; simpl; [contradiction|].
  intros [<-|Hin]; [eauto|].
  destruct (IH Hin) as (y & Hy & Hp). eauto.
Qed.

(** X12. When the pre-transform succeeds, no row is lost without cause:
    a row of the spreadsheet whose balance is positive, whose debtor
    name holds none of the excluded names and whose entity code holds
    none of the excluded codes is in the result, with its cells cast to
    integers, its name capitalised, its account split and its two
    securities added up. *)
Theorem pre_transform_keeps_clean_rows (df : frame) (df_main : list main_row)
    (r : selected_row num) (ri : selected_row Z) :
  pre_transform_data df = Ok df_main ->
  In r (rows df) ->
  row_to_int r = Ok ri ->
  0 < balance (sel_amounts ri) ->
  str_contains_na_false debtors_to_drop (option_map py_lower (unnamed1 ri)) = false ->
  str_contains_na_false entity_code_to_drop (split_part (unnamed0 ri) 1) = false ->
  In (main_of_selected ri) df_main.
Proof.
  unfold pre_transform_data. intros H Hin Hri Hpos Hname Hcode.
  apply bind_ok in H. destruct H as (sel & Hsel & H).
  apply bind_ok in H. destruct H as (ints & Hints & H).
  apply bind_ok in H. destruct H as (deb & Hdeb & H).
  apply bind_ok in H. destruct H as (sp & Hsp & H).
  apply bind_ok in H. destruct H as (ent & Hent & H).
  injection H as <-.
  assert (Esel : sel = rows df).
  { unfold adjust_select_columns in Hsel.
    destruct (filter _ select_cols); [|discriminate Hsel].
    injection Hsel as <-. reflexivity. }
  subst sel.
  assert (I1 : In ri ints).
  { unfold convert_float_to_int in Hints.
    repeat match type of Hints with
           | (if ?b then _ else _) = _ => destruct b; [discriminate Hints|]
           end.
    apply mapM_ok in Hints.
    destruct (Forall2_In_l _ _ _ _ Hints Hin) as (y & Hy & Ey).
    congruence. }
  assert (I2 : In (rename_row ri) (filter_positive_balance (rename_headers ints))).
  { apply filter_In. split; [apply in_map; exact I1|].
    apply Z.ltb_lt. exact Hpos. }
  assert (I3 : In (set_debtor_name py_capitalize
                     (set_debtor_name py_lower (rename_row ri))) deb).
  { unfold filter_col_debtor_name in Hdeb. injection Hdeb as <-.
    apply in_map. apply filter_In. split; [apply in_map; exact I2|].
    cbn [set_debtor_name nr_debtor_name rename_row]. rewrite Hname. reflexivity. }
  unfold split_col_long_credit_account in Hsp.
  destruct (Nat.eqb _ 3); [|discriminate Hsp]. injection Hsp as <-.
  unfold filter_col_entity_code in Hent. apply reraise_ok in Hent.
  destruct (existsb _ _); [discriminate Hent|]. injection Hent as <-.
  unfold add_col_security, main_of_selected. apply in_map.
  apply filter_In. split; [apply in_map; exact I3|].
  cbn [split_one sr_entity_code set_debtor_name long_credit_account rename_row].
  rewrite Hcode. reflexivity.
Qed.

Lemma pre_transform_keeps_clean_rows_witness :
  In (main_of_selected
        (SelectedRow (Some "5/567/456") (Some "Acme") (Some "PL")
                     (Amounts 1000 0 0 0 0 0 100 0) 150 50))
     [example_main "567"].
Proof.
  apply (pre_transform_keeps_clean_rows (example_frame "5/567/456" "Acme")
           [example_main "567"] (example_row "5/567/456" "Acme")
           (SelectedRow (Some "5/567/456") (Some "Acme") (Some "PL")
                        (Amounts 1000 0 0 0 0 0 100 0) 150 50));
    try reflexivity.
  left. reflexivity.
Defined.

(* ================================================================= *)
(** ** The left join *)

(** X13. The left join loses no row and invents none: a row of
    [df_main] is joined with every entry of the reference table that has
    its entity code, and every joined row comes from a row of
    [df_main]. *)
Theorem left_join_keeps_rows (df_main : list main_row) (d_region : list region_row) :
  (forall r g, In r df_main -> In g d_region ->
     entity_code r = Some (rg_entity_code g) ->
     In (JoinedRow r (rg_region g) (rg_tax_rate g)) (merge_left df_main d_region))
  /\ (forall r, In r df_main ->
        exists j, In j (merge_left df_main d_region) /\ jr_main j = r)
  /\ (forall j, In j (merge_left df_main d_region) -> In (jr_main j) df_main).
Proof.
  split; [|split].
  - intros r g Hr Hg Hk. unfold merge_left. apply in_flat_map.
    exists r. split; [exact Hr|].
    assert (Hf : In g (filter (key_matches (entity_code r)) d_region)).
    { apply filter_In. split; [exact Hg|]. unfold key_matches. rewrite Hk.
      apply String.eqb_refl. }
    destruct (filter (key_matches (entity_code r)) d_region) as [|g0 gs];
      [contradiction|].
    apply (in_map (fun g => JoinedRow r (rg_region g) (rg_tax_rate g))). exact Hf.
  - intros r Hr. unfold merge_left.
    destruct (filter (key_matches (entity_code r)) d_region) as [|g0 gs] eqn:F.
    + exists (JoinedRow r None S754_nan). split; [|reflexivity].
      apply in_flat_map. exists r. split; [exact Hr|]. rewrite F. left. reflexivity.
    + exists (JoinedRow r (rg_region g0) (rg_tax_rate g0)). split; [|reflexivity].
      apply in_flat_map. exists r. split; [exact Hr|]. rewrite F. left. reflexivity.
  - intros j. apply merge_left_main.
Qed.

Lemma filter_unique_key (k : string) (d_region : list region_row) :
  NoDup (map rg_entity_code d_region) ->
  (List.length (filter (key_matches (Some k)) d_region) <= 1)%nat.
Proof.
  induction d_region as [|g gs IH]; cbn [map filter]; intros Hnd; [cbn; lia|].
  inversion Hnd as [|? ? Hnotin Hnd']; subst.
  cbn [key_matches]. destruct (String.eqb_spec k (rg_entity_code g)) as [->|N].
  - rewrite filter_nil; [cbn; lia|].
    intros x Hx. cbn [key_matches]. apply String.eqb_neq. intros E.
    apply Hnotin. rewrite E. apply in_map. exact Hx.
  - apply IH. exact Hnd'.
Qed.

(** X14. When no entity code is listed twice in the reference table, the
    left join keeps the table as it is: the same rows in the same order,
    each once. *)
Theorem left_join_on_unique_codes (df_main : list main_row)
    (d_region : list region_row) :
  NoDup (map rg_entity_code d_region) ->
  map jr_main (merge_left df_main d_region) = df_main.
Proof.
  intros Hnd. unfold merge_left.
  induction df_main as [|r df IH]; [reflexivity|].
  cbn [flat_map]. rewrite map_app, IH. clear IH.
  assert (One : map jr_main
                  match filter (key_matches (entity_code r)) d_region with
                  | [] => [JoinedRow r None S754_nan]
                  | g :: gs =>
                      map (fun g => JoinedRow r (rg_region g) (rg_tax_rate g)) (g :: gs)
                  end = [r]).
  { destruct (entity_code r) as [k|].
    - pose proof (filter_unique_key k d_region Hnd) as L.
      destruct (filter (key_matches (Some k)) d_region) as [|g [|g' gs]];
        [reflexivity|reflexivity|cbn in L; lia].
    - rewrite filter_nil by reflexivity. reflexivity. }
  rewrite One. reflexivity.
Qed.

Lemma left_join_on_unique_codes_witness :
  map jr_main (merge_left [example_main "567"; example_main "999"] two_code_regions)
  = [example_main "567"; example_main "999"].
Proof.
  apply (left_join_on_unique_codes _ two_code_regions).
  repeat constructor; cbn; intuition discriminate.
Defined.

(** X15. When [calculate_uninsured_balance] succeeds it returns the rows
    it was given, in order, each with its region. The uninsured balance
    of a row comes from the binary64 value
    [max(0, (balance - security) / (1 + tax_rate) - citotal)], which is
    finite and not negative: it is that value truncated when the
    truncation is below [2^63], and [-2^63], the result of the cast out
    of the range of [int64], when it is not. *)
Theorem calculate_keeps_rows (df : list joined_row) (out : list enriched_row) :
  calculate_uninsured_balance df = Ok out ->
  map er_main out = map jr_main df
  /\ map region out = map jr_region df
  /\ Forall2
       (fun r e =>
          exists z,
            trunc_float (uninsured_balance_adj r) = Some z
            /\ 0 <= z
            /\ uninsured_balance e = if z <? 2 ^ 63 then z else - 2 ^ 63)
       df out.
Proof.
  intros H. apply calculate_uninsured_balance_ok in H.
  induction H as [|r e df out Hre _ IH]; [repeat split; constructor|].
  destruct IH as (I1 & I2 & I3). cbn [map]. rewrite I1, I2.
  destruct (calculate_row_value _ _ Hre) as (z & Hz & Hpos & Hu).
  unfold calculate_row in Hre. apply bind_ok in Hre.
  destruct Hre as (u & _ & Hre). injection Hre as <-.
  cbn [er_main region uninsured_balance] in *.
  repeat split. constructor; [|exact I3].
  exists z. rewrite <- (cast_int64_nonneg z Hpos). auto.
Qed.

Lemma calculate_keeps_rows_witness :
  let df := [JoinedRow large_balance_main (Some "EMEA") negative_half] in
  let out := [EnrichedRow large_balance_main (Some "EMEA") (- 9223372036854775808)] in
  map er_main out = map jr_main df
  /\ map region out = map jr_region df
  /\ Forall2
       (fun r e =>
          exists z,
            trunc_float (uninsured_balance_adj r) = Some z
            /\ 0 <= z
            /\ uninsured_balance e = if z <? 2 ^ 63 then z else - 2 ^ 63)
       df out.
Proof.
  intros df out. apply (calculate_keeps_rows df out). reflexivity.
Defined.

(* ================================================================= *)
(** ** The two views, further *)

(** X16. Every row of the top-40 view is a row of the joined table, and
    it has a region: a row whose region is missing is in no group. *)
Theorem top40_rows_are_input_rows (df : list enriched_row) (r : enriched_row) :
  In r (top40_grouped df) -> In r df /\ region r <> None.
Proof.
  unfold top40_grouped, groupby. rewrite flat_map_map. cbn [snd]. intros H.
  apply in_flat_map in H. destruct H as (k & _ & H).
  apply nlargest_In in H. apply filter_In in H. destruct H as [Hin Hg].
  split; [exact Hin|]. unfold in_group in Hg.
  destruct (region r); [discriminate|discriminate Hg].
Qed.

Lemma top40_rows_are_input_rows_witness :
  let r := EnrichedRow (example_main "567") (Some "EMEA") 627 in
  In r [r] /\ region r <> None.
Proof.
  intros r. apply (top40_rows_are_input_rows [r] r). left. reflexivity.
Defined.

(** X17. A region with at most forty rows is reported in full: its rows
    in the view are a rearrangement of its rows in the table. *)
Theorem small_region_is_reported_in_full (df : list enriched_row) (g : string) :
  (List.length (filter (in_region g) df) <= 40)%nat ->
  Permutation (filter (in_region g) (top40_grouped df)) (filter (in_region g) df).
Proof.
  intros H. rewrite top40_of_region. unfold nlargest.
  rewrite firstn_all2.
  - apply sort_desc_perm.
  - rewrite (Permutation_length (sort_desc_perm _)). exact H.
Qed.

Lemma small_region_is_reported_in_full_witness :
  let r := EnrichedRow (example_main "567") (Some "EMEA") 627 in
  Permutation (filter (in_region "EMEA") (top40_grouped [r; r]))
              (filter (in_region "EMEA") [r; r]).
Proof.
  intros r. apply (small_region_is_reported_in_full [r; r] "EMEA").
  cbn. lia.
Defined.


Lemma group_keys_sorted {R K : Type} (cmp : K -> K -> comparison)
    (key : R -> option K) (df : list R) :
  (forall a b, cmp a b = Eq -> a = b) ->
  (forall a b, cmp a b = CompOpp (cmp b a)) ->
  (forall a b c, cmp a b = Lt -> cmp b c = Lt -> cmp a c = Lt) ->
  StronglySorted (fun a b => cmp a b = Lt) (group_keys cmp key df).
Proof.
  intros Heq Hanti Htrans. unfold group_keys.
  induction (present_keys key df) as [|k ks IH]; cbn [fold_right].
  - constructor.
  - apply (insert_key_sorted K cmp Heq Hanti Htrans). exact IH.
Qed.

Lemma StronglySorted_map {A B : Type} (P : B -> B -> Prop) (f : A -> B) (l : list A) :
  StronglySorted P (map f l) -> StronglySorted (fun a b => P (f a) (f b)) l.
Proof.
  induction l as [|a l IH]; cbn [map]; intros H; [constructor|].
  inversion H as [|? ? Hs Hf]; subst. constructor; [apply IH; exact Hs|].
  rewrite Forall_forall in *. intros x Hx. apply Hf. apply in_map. exact Hx.
Qed.

(** X19. The aggregate view has one row for each pair of entity code and
    country code that occurs in the table, and no other; its rows are in
    strictly increasing order of the pair. *)
Theorem aggregate_has_one_row_per_pair (df : list enriched_row)
    (reporting_date : datetime) :
  exists out,
    get_agg_by_entity_country df reporting_date = Ok out
    /\ StronglySorted
         (fun a b =>
            pair_compare (agg_entity_code a, agg_country_code a)
                         (agg_entity_code b, agg_country_code b) = Lt) out
    /\ forall e c,
         (exists a, In a out /\ agg_entity_code a = e /\ agg_country_code a = c)
         <-> (exists r, In r df /\ agg_key r = Some (e, c)).
Proof.
  eexists. split; [reflexivity|]. split.
  - apply (StronglySorted_map
             (fun a b => pair_compare a b = Lt)
             (fun a => (agg_entity_code a, agg_country_code a))).
    unfold groupby. rewrite !map_map. cbn [agg_group agg_entity_code agg_country_code fst snd].
    rewrite (map_ext _ (fun k => k)) by (intros [e c]; reflexivity).
    rewrite map_id.
    apply group_keys_sorted;
      [exact pair_compare_eq|exact pair_compare_antisym|exact pair_compare_trans].
  - intros e c. unfold groupby. rewrite map_map.
    rewrite <- (group_keys_In _ _ pair_compare agg_key pair_compare_eq df (e, c)).
    split.
    + intros (a & Ha & <- & <-). apply in_map_iff in Ha.
      destruct Ha as ([e' c'] & <- & Hk). exact Hk.
    + intros Hk. eexists. split; [apply in_map_iff; exists (e, c); eauto|].
      split; reflexivity.
Qed.

(* ================================================================= *)
(** ** The dictionary of the parameter sheet *)

Lemma dict_set_keys (k v x : string) (d : list (string * string)) :
  In x (map fst (dict_set k v d)) <-> x = k \/ In x (map fst d).
Proof.
  induction d as [|[k' v'] d IH]; cbn [dict_set map fst In];
    [intuition congruence|].
  destruct (String.eqb_spec k k') as [->|N]; cbn [map fst In].
  - intuition congruence.
  - rewrite IH. intuition congruence.
Qed.

Lemma dict_set_NoDup (k v : string) (d : list (string * string)) :
  NoDup (map fst d) -> NoDup (map fst (dict_set k v d)).
Proof.
  induction d as [|[k' v'] d IH]; cbn [dict_set map fst]; intros H.
  - repeat constructor. intros [].
  - inversion H as [|? ? Hn Hd]; subst.
    destruct (String.eqb_spec k k') as [->|N]; cbn [map fst].
    + constructor; assumption.
    + constructor; [|apply IH; exact Hd].
      rewrite dict_set_keys. intros [E|I]; [congruence|contradiction].
Qed.

Lemma dict_get_set (k k' v : string) (d : list (string * string)) :
  dict_get k (dict_set k' v d) = if String.eqb k k' then Some v else dict_get k d.
Proof.
  unfold dict_get. induction d as [|[k0 v0] d IH]; cbn [dict_set find fst].
  - destruct (String.eqb k k'); reflexivity.
  - destruct (String.eqb_spec k' k0) as [->|N]; cbn [find fst].
    + destruct (String.eqb k k0); reflexivity.
    + destruct (String.eqb_spec k k0) as [->|N'].
      * rewrite (proj2 (String.eqb_neq k0 k')) by congruence. reflexivity.
      * exact IH.
Qed.

Lemma dict_get_app (k : string) (d1 d2 : list (string * string)) :
  dict_get k (d1 ++ d2)
  = match dict_get k d1 with
    | Some v => Some v
    | None => dict_get k d2
    end.
Proof.
  unfold dict_get. induction d1 as [|[k0 v0] d1 IH]; cbn [app find fst]; [reflexivity|].
  destruct (String.eqb k k0); [reflexivity|exact IH].
Qed.

Lemma fold_dict_set_spec (rows d : list (string * string)) :
  let out := fold_left (fun d kv => dict_set (fst kv) (snd kv) d) rows d in
  (NoDup (map fst d) -> NoDup (map fst out))
  /\ (forall x, In x (map fst out) <-> In x (map fst rows) \/ In x (map fst d))
  /\ (forall k, dict_get k out
                = match last_path k rows with
                  | Some v => Some v
                  | None => dict_get k d
                  end).
Proof.
  revert d. induction rows as [|[k' v'] rows IH]; intros d; cbn [fold_left fst snd].
  - cbv zeta. repeat split; auto; cbn; tauto.
  - specialize (IH (dict_set k' v' d)). cbv zeta in *.
    destruct IH as (I1 & I2 & I3). split; [|split].
    + intros H. apply I1. apply dict_set_NoDup. exact H.
    + intros x. rewrite I2, dict_set_keys. cbn [map fst In]. intuition congruence.
    + intros k. rewrite I3, dict_get_set. unfold last_path. cbn [rev].
      rewrite dict_get_app. destruct (dict_get k (rev rows)); [reflexivity|].
      unfold dict_get at 2. cbn [find fst].
      destruct (String.eqb k k'); reflexivity.
Qed.

(** X20. The dictionary built from the sheet has each description once,
    under it the path of the last row with that description. *)
Theorem to_dict_last_row_wins (rows : list (string * string)) :
  NoDup (map fst (to_dict rows))
  /\ (forall k, In k (map fst (to_dict rows)) <-> In k (map fst rows))
  /\ (forall k, dict_get k (to_dict rows) = last_path k rows).
Proof.
  destruct (fold_dict_set_spec rows []) as (I1 & I2 & I3). cbv zeta in *.
  fold (to_dict rows) in *. split; [apply I1; constructor|]. split.
  - intros k. rewrite I2. cbn. tauto.
  - intros k. rewrite I3. destruct (last_path k rows); reflexivity.
Qed.

Lemma to_dict_length (rows : list (string * string)) :
  List.length (to_dict rows) = distinct_descriptions rows.
Proof.
  destruct (fold_dict_set_spec rows []) as (Hnd & Hin & _). cbv zeta in *.
  fold (to_dict rows) in *.
  unfold distinct_descriptions. rewrite <- (length_map fst (to_dict rows)).
  apply Permutation_length. apply NoDup_Permutation.
  - apply Hnd. constructor.
  - apply NoDup_nodup.
  - intros x. rewrite Hin, nodup_In. cbn. tauto.
Qed.

(** X21. On a sheet that has the two columns, [etl_parameter_path]
    returns three paths exactly when the sheet holds three distinct
    descriptions, however many rows it has; in every other case it
    raises the [exactly three rows] error. *)
Theorem parameter_paths_need_three_descriptions (sheet : param_sheet) :
  py_in "Description" (ps_columns sheet) = true ->
  py_in "Path" (ps_columns sheet) = true ->
  match etl_parameter_path sheet with
  | Ok _ => distinct_descriptions (ps_rows sheet) = 3%nat
  | Raise e =>
      e = three_rows_error /\ distinct_descriptions (ps_rows sheet) <> 3%nat
  end.
Proof.
  intros HD HP. unfold etl_parameter_path. rewrite HD, HP. cbn [andb].
  rewrite <- to_dict_length. unfold dict_values.
  rewrite <- (length_map snd (to_dict (ps_rows sheet))).
  destruct (map snd (to_dict (ps_rows sheet))) as [|a [|b [|c [|x l]]]];
    cbn [List.length]; try (split; [reflexivity|lia]). reflexivity.
Qed.

Lemma parameter_paths_need_three_descriptions_witness :
  let sheet :=
    ParamSheet ["Description"; "Path"]
      [("raw", "C:/old"); ("raw", "C:/arm/raw"); ("regions", "C:/arm/d.csv");
       ("export", "C:/arm/out")] in
  etl_parameter_path sheet = Ok ("C:/arm/raw", "C:/arm/d.csv", "C:/arm/out")
  /\ match etl_parameter_path sheet with
     | Ok _ => distinct_descriptions (ps_rows sheet) = 3%nat
     | Raise e =>
         e = three_rows_error /\ distinct_descriptions (ps_rows sheet) <> 3%nat
     end.
Proof.
  intros sheet. split; [reflexivity|].
  apply (parameter_paths_need_three_descriptions sheet); reflexivity.
Defined.

(* ================================================================= *)
(** ** The reference file, the export and the loop over the files *)

(** X22. [get_regions_df] reads the file once. It returns the rows when
    the read succeeds and the two columns it drops are there; a
    [FileNotFoundError] of the read stays a [FileNotFoundError]; any
    other failure, a missing column to drop among them, becomes an
    [Exception]. *)
Theorem get_regions_df_spec (pd_read_csv : string -> result region_file)
    (filepath : string) :
  snd (get_regions_df pd_read_csv filepath) = [CsvRead filepath]
  /\ match fst (get_regions_df pd_read_csv filepath) with
     | Ok d_region =>
         exists f, pd_read_csv filepath = Ok f
                   /\ d_region = rf_rows f
                   /\ In "entity_name" (rf_columns f)
                   /\ In "vat_insured" (rf_columns f)
     | Raise e =>
         match pd_read_csv filepath with
         | Raise e0 =>
             exn_class e = (if is_file_not_found e0 then FileNotFoundError
                            else PyException)
         | Ok f =>
             exn_class e = PyException
             /\ ~ (In "entity_name" (rf_columns f) /\ In "vat_insured" (rf_columns f))
         end
     end.
Proof.
  split; [reflexivity|]. unfold get_regions_df. cbn [fst].
  destruct (pd_read_csv filepath) as [f|e0]; cbn [bind].
  - unfold drop_region_columns, dropped_region_columns. cbn [filter].
    destruct (py_in "entity_name" (rf_columns f)) eqn:E1;
      destruct (py_in "vat_insured" (rf_columns f)) eqn:E2; cbn [negb].
    + exists f. apply py_in_In in E1, E2. auto.
    + split; [reflexivity|]. intros [_ H]. apply py_in_In in H. congruence.
    + split; [reflexivity|]. intros [H _]. apply py_in_In in H. congruence.
    + split; [reflexivity|]. intros [H _]. apply py_in_In in H. congruence.
  - destruct (is_file_not_found e0); reflexivity.
Qed.

(** X23. [transform_data] does not read the reference file when the
    pre-transform fails; otherwise it reads it once, and with the table
    read it computes the two views of the joined table. *)
Theorem transform_reads_regions_after_pre_transform
    (pd_read_csv : string -> result region_file)
    (df : frame) (reporting_date : datetime) (filepath_dregion : string) :
  match pre_transform_data df with
  | Raise e =>
      transform_data_io pd_read_csv df reporting_date filepath_dregion = (Raise e, [])
  | Ok _ =>
      snd (transform_data_io pd_read_csv df reporting_date filepath_dregion)
      = [CsvRead filepath_dregion]
      /\ match fst (get_regions_df pd_read_csv filepath_dregion) with
         | Ok d_region =>
             fst (transform_data_io pd_read_csv df reporting_date filepath_dregion)
             = transform_data df reporting_date d_region
         | Raise e =>
             fst (transform_data_io pd_read_csv df reporting_date filepath_dregion)
             = Raise e
         end
  end.
Proof.
  unfold transform_data_io, transform_data, joined_table, io_bind, io_lift.
  destruct (pre_transform_data df) as [m|e]; [|reflexivity].
  cbn [bind]. unfold get_regions_df. cbn [fst snd].
  match goal with
  | |- context [match ?x with Ok _ => _ | Raise _ => _ end] =>
      destruct x as [rg|e] eqn:E
  end.
  - cbn [fst snd app]. split; [reflexivity|].
    destruct (calculate_uninsured_balance (merge_left m rg)); reflexivity.
  - destruct (is_file_not_found e); cbn [fst snd]; split; reflexivity.
Qed.

(** X24. [load_data] writes the top-40 report first, to
    [<destination>/arm_top40_by_region_<date>.csv]; when that write
    fails it raises an [Exception] and does not write the aggregate
    report; otherwise it writes the aggregate report to
    [<destination>/arm_agg_by_region_country_<date>.csv]. *)
Theorem load_data_writes_in_order (df_to_csv : string -> report -> result unit)
    (destination_path reporting_date : string)
    (df_top40 : list top40_row) (df_agg : list agg_row) :
  let top_path :=
    destination_path ++ "/arm_top40_by_region_" ++ reporting_date ++ ".csv" in
  let agg_path :=
    destination_path ++ "/arm_agg_by_region_country_" ++ reporting_date ++ ".csv" in
  load_data df_to_csv destination_path reporting_date df_top40 df_agg
  = match df_to_csv top_path (TopReport df_top40) with
    | Raise e =>
        (Raise (Exn PyException
                  ("Error occurred while exporting the DataFrame top40_by_region"
                   ++ " to CSV: " ++ exn_str e)),
         [CsvWrite top_path (TopReport df_top40)])
    | Ok _ =>
        (match df_to_csv agg_path (AggReport df_agg) with
         | Raise e =>
             Raise (Exn PyException
                      ("Error occurred while exporting the DataFrame "
                       ++ "agg_by_region_country to CSV: " ++ exn_str e))
         | Ok u => Ok u
         end,
         [CsvWrite top_path (TopReport df_top40);
          CsvWrite agg_path (AggReport df_agg)])
    end.
Proof.
  intros top_path agg_path.
  unfold load_data, load_to_csv, io_bind, export_path.
  change (destination_path ++ "/"
          ++ "arm_" ++ "top40_by_region" ++ "_" ++ reporting_date ++ ".csv")
    with top_path.
  change (destination_path ++ "/"
          ++ "arm_" ++ "agg_by_region_country" ++ "_" ++ reporting_date ++ ".csv")
    with agg_path.
  destruct (df_to_csv top_path (TopReport df_top40)) as [u|e]; cbn [reraise].
  - destruct (df_to_csv agg_path (AggReport df_agg)); reflexivity.
  - reflexivity.
Qed.

Section RunFacts.
Variable pd_read_excel : string -> list nat -> nat -> result frame.
Variable pd_read_csv : string -> result region_file.
Variable df_to_csv : string -> report -> result unit.
Variables folder_path_raw_data file_path_dregion folder_path_export : string.

Let run_file (item : string) : io unit :=
  etl_file pd_read_excel pd_read_csv df_to_csv
           folder_path_raw_data file_path_dregion folder_path_export item.

Lemma extract_data_events (item : string) :
  snd (extract_data pd_read_excel folder_path_raw_data item []) = []
  \/ exists p s n,
       snd (extract_data pd_read_excel folder_path_raw_data item [])
       = [ReadExcel p s n].
Proof.
  unfold extract_data, trim_string, get_data_from_xlsx.
  destruct (date_str_datetime (py_strip item)) as [[s d]|e]; [|left; reflexivity].
  right. do 3 eexists.
  destruct (pd_read_excel _ _ _); reflexivity.
Qed.

Lemma transform_data_io_events (df : frame) (d : datetime) :
  snd (transform_data_io pd_read_csv df d file_path_dregion) = []
  \/ snd (transform_data_io pd_read_csv df d file_path_dregion)
     = [CsvRead file_path_dregion].
Proof.
  unfold transform_data_io, io_bind, io_lift, get_regions_df.
  destruct (pre_transform_data df) as [m|e]; [|left; reflexivity].
  right.
  match goal with
  | |- context [match ?x with Ok _ => _ | Raise _ => _ end] => destruct x
  end; [reflexivity|].
  destruct (is_file_not_found e); reflexivity.
Qed.

Lemma load_data_events (s : string) (top : list top40_row) (agg : list agg_row) :
  exists p1 r1,
    snd (load_data df_to_csv folder_path_export s top agg) = [CsvWrite p1 r1]
    \/ exists p2 r2,
         snd (load_data df_to_csv folder_path_export s top agg)
         = [CsvWrite p1 r1; CsvWrite p2 r2].
Proof.
  unfold load_data, load_to_csv, io_bind. do 2 eexists.
  destruct (df_to_csv _ (TopReport top)); cbn [reraise snd].
  - right. do 2 eexists. reflexivity.
  - left. reflexivity.
Qed.

Lemma etl_file_events (item : string) :
  filter closes_file (snd (run_file item)) = []
  /\ (List.length (filter is_sheet_read (snd (run_file item))) <= 1)%nat
  /\ (List.length (filter is_write (snd (run_file item))) <= 2)%nat.
Proof.
  unfold run_file, etl_file, io_bind.
  pose proof (extract_data_events item) as E.
  destruct (extract_data pd_read_excel folder_path_raw_data item [])
    as [[[[df s] d]|e] ev]; cbn [snd] in E |- *.
  - pose proof (transform_data_io_events df d) as T.
    destruct (transform_data_io pd_read_csv df d file_path_dregion)
      as [[[top agg]|e] ev2]; cbn [snd] in T |- *.
    + destruct (load_data_events s top agg) as (p1 & r1 & L).
      destruct (load_data df_to_csv folder_path_export s top agg) as [r ev3];
        cbn [snd] in L |- *.
      destruct E as [-> | (p & sk & n & ->)]; destruct T as [-> | ->];
        destruct L as [-> | (p2 & r2 & ->)]; cbn; repeat split; lia.
    + destruct E as [-> | (p & sk & n & ->)]; destruct T as [-> | ->];
        cbn; repeat split; lia.
  - destruct E as [-> | (p & sk & n & ->)]; cbn; repeat split; lia.
Qed.

Lemma process_file_counts (item : string) :
  let ev := process_file pd_read_excel pd_read_csv df_to_csv
              folder_path_raw_data file_path_dregion folder_path_export item in
  List.length (filter closes_file ev) = 1%nat
  /\ (List.length (filter is_sheet_read ev) <= 1)%nat
  /\ (List.length (filter is_write ev) <= 2)%nat.
Proof.
  cbv zeta. unfold process_file. fold (run_file item).
  destruct (etl_file_events item) as (C & S & W).
  destruct (run_file item) as [[u|e] ev]; cbn [snd] in *;
    rewrite !filter_app, !length_app, C; cbn; repeat split; lia.
Qed.
End RunFacts.

Lemma etl_loop_counts
    (pd_read_excel : string -> list nat -> nat -> result frame)
    (pd_read_csv : string -> result region_file)
    (df_to_csv : string -> report -> result unit)
    (raw dregion export : string) (files : list string) :
  let ev := etl_loop pd_read_excel pd_read_csv df_to_csv raw dregion export files in
  List.length (filter closes_file ev) = List.length files
  /\ (List.length (filter is_sheet_read ev) <= List.length files)%nat
  /\ (List.length (filter is_write ev) <= 2 * List.length files)%nat.
Proof.
  cbv zeta. induction files as [|item files IH]; [cbn; repeat split; lia|].
  cbn [etl_loop]. rewrite !filter_app, !length_app.
  destruct (process_file_counts pd_read_excel pd_read_csv df_to_csv
              raw dregion export item) as (C & S & W).
  cbv zeta in C, S, W. destruct IH as (IC & IS & IW).
  cbn [List.length]. repeat split; lia.
Qed.

(** X25. A run over the listed files closes the turn of every file, with
    one logged error or one step of the progress bar, so no failure
    stops the loop; it reads at most one spreadsheet and writes at most
    two reports per file. *)
Theorem main_handles_every_file
    (pd_read_excel : string -> list nat -> nat -> result frame)
    (pd_read_csv : string -> result region_file)
    (df_to_csv : string -> report -> result unit)
    (os_listdir : string -> result (list string))
    (sheet : param_sheet) (raw dregion export : string) (files : list string) :
  etl_parameter_path sheet = Ok (raw, dregion, export) ->
  os_listdir raw = Ok files ->
  exists ev,
    main pd_read_excel pd_read_csv df_to_csv sheet os_listdir = (Ok tt, ev)
    /\ List.length (filter closes_file ev) = List.length files
    /\ (List.length (filter is_sheet_read ev) <= List.length files)%nat
    /\ (List.length (filter is_write ev) <= 2 * List.length files)%nat.
Proof.
  intros HP HL. unfold main. rewrite HP, HL. eexists. split; [reflexivity|].
  apply etl_loop_counts.
Qed.

Lemma main_handles_every_file_witness :
  exists ev,
    main empty_read (fun _ => Raise (Exn FileNotFoundError "no such file"))
         (fun _ _ => Ok tt)
         (ParamSheet ["Description"; "Path"]
            [("raw", "C:/arm/raw"); ("regions", "C:/arm/d.csv");
             ("export", "C:/arm/out")])
         (fun _ => Ok ["ARM_2023-01-15.xlsx"; "notes.txt"])
    = (Ok tt, ev)
    /\ List.length (filter closes_file ev)
       = List.length ["ARM_2023-01-15.xlsx"; "notes.txt"]
    /\ (List.length (filter is_sheet_read ev)
        <= List.length ["ARM_2023-01-15.xlsx"; "notes.txt"])%nat
    /\ (List.length (filter is_write ev)
        <= 2 * List.length ["ARM_2023-01-15.xlsx"; "notes.txt"])%nat.
Proof.
  apply (main_handles_every_file empty_read
           (fun _ => Raise (Exn FileNotFoundError "no such file"))
           (fun _ _ => Ok tt)
           (fun _ => Ok ["ARM_2023-01-15.xlsx"; "notes.txt"])
           (ParamSheet ["Description"; "Path"]
              [("raw", "C:/arm/raw"); ("regions", "C:/arm/d.csv");
               ("export", "C:/arm/out")])
           "C:/arm/raw" "C:/arm/d.csv" "C:/arm/out");
    reflexivity.
Defined.

(** X26. For a file whose stripped name does not match the pattern, the
    loop does nothing but log one error, which names the file and holds
    the message of the format error. *)
Theorem unmatched_file_is_only_logged
    (pd_read_excel : string -> list nat -> nat -> result frame)
    (pd_read_csv : string -> result region_file)
    (df_to_csv : string -> report -> result unit)
    (raw dregion export item : string) :
  re_match_filename (py_strip item) = false ->
  process_file pd_read_excel pd_read_csv df_to_csv raw dregion export item
  = [ErrorLogged
       ("Failed to execute ETL on file " ++ item ++ ": File name '"
        ++ py_strip item ++ "' does not match format ARM_YYYY-MM-DD.xlsx")].
Proof.
  intros H.
  unfold process_file, etl_file, io_bind, extract_data, trim_string,
    date_str_datetime, get_date_from_filename.
  rewrite H. reflexivity.
Qed.

Lemma unmatched_file_is_only_logged_witness :
  process_file empty_read (fun _ => Ok (RegionFile [] [])) (fun _ _ => Ok tt)
               "raw" "d.csv" "out" "notes.txt"
  = [ErrorLogged
       ("Failed to execute ETL on file " ++ "notes.txt" ++ ": File name '"
        ++ py_strip "notes.txt" ++ "' does not match format ARM_YYYY-MM-DD.xlsx")].
Proof.
  apply (unmatched_file_is_only_logged empty_read
           (fun _ => Ok (RegionFile [] [])) (fun _ _ => Ok tt)
           "raw" "d.csv" "out" "notes.txt").
  reflexivity.
Defined.

(** X27. A report is written for a file only after its extraction and
    its transform have both succeeded. *)
Theorem no_write_unless_transformed
    (pd_read_excel : string -> list nat -> nat -> result frame)
    (pd_read_csv : string -> result region_file)
    (df_to_csv : string -> report -> result unit)
    (raw dregion export item : string) :
  filter is_write
    (process_file pd_read_excel pd_read_csv df_to_csv raw dregion export item)
  <> [] ->
  exists df date_str d top agg,
    fst (extract_data pd_read_excel raw item []) = Ok (df, date_str, d)
    /\ fst (transform_data_io pd_read_csv df d dregion) = Ok (top, agg).
Proof.
  unfold process_file, etl_file, io_bind.
  pose proof (extract_data_events pd_read_excel raw item) as E.
  destruct (extract_data pd_read_excel raw item [])
    as [[[[df s] d]|e] ev] eqn:Ex; cbn [fst snd] in E |- *.
  - pose proof (transform_data_io_events pd_read_csv dregion df d) as T.
    destruct (transform_data_io pd_read_csv df d dregion)
      as [[[top agg]|e] ev2] eqn:Et; cbn [fst snd] in T |- *.
    + intros _. exists df, s, d, top, agg. rewrite Et. split; reflexivity.
    + intros H. exfalso. apply H.
      destruct E as [-> | (p & sk & n & ->)]; destruct T as [-> | ->]; reflexivity.
  - intros H. exfalso. apply H.
    destruct E as [-> | (p & sk & n & ->)]; reflexivity.
Qed.

(** X28. For a file whose name gives a date, whose spreadsheet and
    reference file are read and transformed, and whose two reports are
    written, the run does these five things in this order: it reads the
    spreadsheet, reads the reference file, writes the top-40 report,
    writes the aggregate report, and advances the progress bar. *)
Theorem successful_file_sequence
    (pd_read_excel : string -> list nat -> nat -> result frame)
    (pd_read_csv : string -> result region_file)
    (df_to_csv : string -> report -> result unit)
    (raw dregion export item date_str : string) (d : datetime)
    (df : frame) (d_region : list region_row)
    (top : list top40_row) (agg : list agg_row) :
  let sheet_path := py_strip raw ++ "/" ++ py_strip item in
  let top_path := export ++ "/arm_top40_by_region_" ++ date_str ++ ".csv" in
  let agg_path := export ++ "/arm_agg_by_region_country_" ++ date_str ++ ".csv" in
  date_str_datetime (py_strip item) = Ok (date_str, d) ->
  pd_read_excel sheet_path top_rows_to_skip 15%nat = Ok df ->
  fst (get_regions_df pd_read_csv dregion) = Ok d_region ->
  transform_data df d d_region = Ok (top, agg) ->
  df_to_csv top_path (TopReport top) = Ok tt ->
  df_to_csv agg_path (AggReport agg) = Ok tt ->
  process_file pd_read_excel pd_read_csv df_to_csv raw dregion export item
  = [SheetRead (ReadExcel sheet_path top_rows_to_skip 15%nat);
     CsvRead dregion;
     CsvWrite top_path (TopReport top);
     CsvWrite agg_path (AggReport agg);
     ProgressTick].
Proof.
  intros sheet_path top_path agg_path Hd Hr Hg Ht Hw1 Hw2.
  assert (P : exists m, pre_transform_data df = Ok m).
  { unfold transform_data, joined_table in Ht.
    destruct (pre_transform_data df) as [m|e]; [eauto|discriminate Ht]. }
  destruct P as (m & P).
  unfold transform_data, joined_table in Ht. rewrite P in Ht. cbn [bind] in Ht.
  unfold get_regions_df in Hg. cbn [fst] in Hg.
  unfold process_file, etl_file, io_bind.
  unfold extract_data, trim_string, get_data_from_xlsx, get_file_path.
  rewrite Hd. fold sheet_path. rewrite Hr. cbn [reraise app map].
  unfold transform_data_io, io_bind, io_lift, get_regions_df.
  rewrite P, Hg.
  cbn [bind join_main_and_dregion] in Ht |- *.
  destruct (calculate_uninsured_balance (merge_left m d_region)) as [j|e];
    [|discriminate Ht].
  cbn [bind] in Ht |- *. rewrite Ht.
  unfold load_data, load_to_csv, io_bind, export_path.
  change (export ++ "/" ++ "arm_" ++ "top40_by_region" ++ "_" ++ date_str ++ ".csv")
    with top_path.
  change (export ++ "/"
          ++ "arm_" ++ "agg_by_region_country" ++ "_" ++ date_str ++ ".csv")
    with agg_path.
  rewrite Hw1, Hw2. reflexivity.
Qed.

Lemma successful_file_sequence_witness :
  let date := Datetime 2023 1 15 in
  let top := [Top40Row date (example_main "567") 627] in
  let agg := [AggRow date "567" "PL" 1000 627 0 0 0 0 0 0] in
  process_file
    (fun _ _ _ => Ok (example_frame "5/567/456" "Acme"))
    (fun _ => Ok (RegionFile ["entity_code"; "entity_name"; "region"; "tax_rate";
                              "vat_insured"] (example_regions "567")))
    (fun _ _ => Ok tt) "raw" "d.csv" "out" "ARM_2023-01-15.xlsx"
  = [SheetRead (ReadExcel "raw/ARM_2023-01-15.xlsx" top_rows_to_skip 15%nat);
     CsvRead "d.csv";
     CsvWrite "out/arm_top40_by_region_2023-01-15.csv" (TopReport top);
     CsvWrite "out/arm_agg_by_region_country_2023-01-15.csv" (AggReport agg);
     ProgressTick].
Proof.
  intros date top agg.
  apply (successful_file_sequence
           (fun _ _ _ => Ok (example_frame "5/567/456" "Acme"))
           (fun _ => Ok (RegionFile ["entity_code"; "entity_name"; "region";
                                     "tax_rate"; "vat_insured"]
                                    (example_regions "567")))
           (fun _ _ => Ok tt) "raw" "d.csv" "out" "ARM_2023-01-15.xlsx"
           "2023-01-15" date (example_frame "5/567/456" "Acme")
           (example_regions "567") top agg);
    reflexivity.
Defined.

Lemma no_write_unless_transformed_witness :
  let rd := fun (_ : string) (_ : list nat) (_ : nat) =>
              Ok (example_frame "5/567/456" "Acme") in
  let csv := fun (_ : string) =>
               Ok (RegionFile ["entity_code"; "entity_name"; "region"; "tax_rate";
                               "vat_insured"] (example_regions "567")) in
  exists df date_str d top agg,
    fst (extract_data rd "raw" "ARM_2023-01-15.xlsx" []) = Ok (df, date_str, d)
    /\ fst (transform_data_io csv df d "d.csv") = Ok (top, agg).
Proof.
  intros rd csv.
  apply (no_write_unless_transformed rd csv (fun _ _ => Ok tt)
           "raw" "d.csv" "out" "ARM_2023-01-15.xlsx").
  vm_compute. discriminate.
Defined.

(* ================================================================= *)
(** ** The cast of the float columns *)

Lemma cell_to_int_value (col : string) (c : num) :
  match cell_to_int col c with
  | Ok z => cell_value c = Some z
  | Raise e => cell_value c = None /\ exn_class e = ValueError
  end.
Proof.
  destruct c as [z|f]; cbn [cell_to_int cell_value]; [reflexivity|].
  unfold astype_int. destruct (trunc_float f); cbn [reraise option_map]; auto.
Qed.

Lemma row_to_int_spec (r : selected_row num) :
  match row_to_int r with
  | Ok ri =>
      unnamed0 ri = unnamed0 r /\ unnamed1 ri = unnamed1 r
      /\ unnamed4 ri = unnamed4 r
      /\ map cell_value (numeric_cells r) = map Some (numeric_cells ri)
  | Raise e =>
      exn_class e = ValueError
      /\ exists c, In c (numeric_cells r) /\ cell_value c = None
  end.
Proof.
  unfold row_to_int, amounts_to_int, numeric_cells.
  destruct r as [u0 u1 u4 [b d1 d2 d3 d4 d5 ci sa] sb so].
  cbn [sel_amounts sel_secbank sel_secother unnamed0 unnamed1 unnamed4
       balance due1_30d due31_60d due61_90d due91_120d due_gt120d citotal sall12m].
  repeat match goal with
         | |- context [cell_to_int ?col ?c] =>
             let H := fresh "H" in
             pose proof (cell_to_int_value col c) as H;
             destruct (cell_to_int col c); cbn [bind];
             [|let N := fresh "N" in
               let V := fresh "V" in
               destruct H as [N V]; split; [exact V|];
               eexists; split; [|exact N]; cbn [In]; tauto]
         end.
  cbn [map sel_amounts sel_secbank sel_secother unnamed0 unnamed1 unnamed4
       balance due1_30d due31_60d due61_90d due91_120d due_gt120d citotal sall12m].
  cbv beta iota in *. repeat split. congruence.
Qed.

Lemma mapM_raise_first {A B : Type} (f : A -> result B) (l : list A) (x : A) :
  In x l -> (exists e, f x = Raise e) ->
  exists y e, In y l /\ f y = Raise e /\ mapM f l = Raise e.
Proof.
  intros Hin (e & Hx). induction l as [|a l IH]; [contradiction|].
  cbn [mapM]. destruct (f a) as [b|e'] eqn:Ha.
  - destruct Hin as [->|Hin]; [congruence|].
    destruct (IH Hin) as (y & e0 & Hy & Hfy & Hm).
    exists y, e0. split; [right; exact Hy|]. split; [exact Hfy|].
    cbn [bind]. rewrite Hm. reflexivity.
  - exists a, e'. split; [left; reflexivity|]. split; [exact Ha|reflexivity].
Qed.



(** X30. A NaN or an infinity in any numeric cell of any row makes
    [convert_float_to_int] raise a [ValueError]: no such table passes
    the cast. *)
Theorem convert_rejects_non_finite (df : list (selected_row num))
    (r : selected_row num) (c : num) :
  In r df -> In c (numeric_cells r) -> cell_value c = None ->
  exists msg, convert_float_to_int df = Raise (Exn ValueError msg).
Proof.
  intros Hr Hc Hv. unfold convert_float_to_int.
  repeat match goal with
         | |- context [if ?b then _ else _] => destruct b; [eexists; reflexivity|]
         end.
  assert (F : exists e, row_to_int r = Raise e).
  { pose proof (row_to_int_spec r) as S.
    destruct (row_to_int r) as [ri|e]; [|eauto].
    exfalso. destruct S as (_ & _ & _ & S).
    apply (in_map cell_value) in Hc. rewrite S, Hv in Hc.
    apply in_map_iff in Hc. destruct Hc as (z & Hz & _). discriminate Hz. }
  destruct (mapM_raise_first row_to_int df r Hr F) as (y & e & _ & Hy & Hm).
  rewrite Hm. pose proof (row_to_int_spec y) as S. rewrite Hy in S.
  destruct S as [S _]. destruct e as [k m]. cbn in S. subst k. eauto.
Qed.

Lemma convert_rejects_non_finite_witness :
  exists msg,
    convert_float_to_int
      [SelectedRow (Some "5/567/456") (Some "Acme") (Some "PL")
         (Amounts (Int 1000) (Int 0) (Int 0) (Int 0) (Int 0) (Int 0)
                  (Flt S754_nan) (Int 0))
         (Int 150) (Int 50)]
    = Raise (Exn ValueError msg).
Proof.
  apply (convert_rejects_non_finite _
           (SelectedRow (Some "5/567/456") (Some "Acme") (Some "PL")
              (Amounts (Int 1000) (Int 0) (Int 0) (Int 0) (Int 0) (Int 0)
                       (Flt S754_nan) (Int 0))
              (Int 150) (Int 50))
           (Flt S754_nan)).
  - left. reflexivity.
  - cbn. tauto.
  - reflexivity.
Defined.
